(** * ant.core.message: framing, validation and dispatch of ANT serial messages

    A shallow embedding of [src/ant/core/message.py].  Python integers are
    [Z], a [bytearray] is a [list Z] whose elements lie in [0, 255], a
    method is a function from the receiver to the receiver paired with
    either a value or the exception raised, so that the writes a method
    made before raising stay visible, as they do in Python.

    The module is Python 2 code: a string is a string of bytes, and is a
    [list Z] of bytes here as well.  A write into [self.payload] is an
    assignment of the updated list to the attribute; that [getHandler]
    hands one bytearray to two instances is not modelled, and no property
    below depends on it. *)

From stdpp Require Import gmap strings list.

Local Open Scope string_scope.
Local Open Scope list_scope.
Local Open Scope Z_scope.

(** ** Exceptions and results *)

(** [MessageError] is the library's own exception (message text and the
    keyword argument [internal]); the others are raised by the Python
    runtime: [ValueError] by a byte outside [range(0, 256)], [IndexError]
    by an index past the end of a [bytearray], [KeyError] by a missing
    dictionary key, [StructError] by [struct.pack] and [struct.unpack],
    [TypeError] by a call that leaves out a required argument and by a
    concatenation of a [bytearray] with something that holds no bytes. *)
Inductive exn : Type :=
| MessageError (msg : string) (internal : option string)
| ValueError
| IndexError
| KeyError (key : Z)
| StructError
| TypeError.

Inductive result (A : Type) : Type :=
| Ok (a : A)
| Raise (e : exn).
Arguments Ok {A} a.
Arguments Raise {A} e.

#[global] Instance exn_eq_dec : EqDecision exn.
Proof. solve_decision. Defined.

#[global] Instance result_ret : MRet result := λ A a, Ok a.
#[global] Instance result_bind : MBind result :=
  λ A B f r, match r with Ok a => f a | Raise e => Raise e end.
#[global] Instance result_throw : MThrow exn result := λ A e, Raise e.

(** ** The Python built-ins the module relies on *)

Module Py.

Definition is_byte (v : Z) : Prop := 0 ≤ v < 256.

#[global] Instance is_byte_dec v : Decision (is_byte v).
Proof. unfold is_byte. apply _. Defined.

Definition len {A} (l : list A) : Z := Z.of_nat (length l).

(** [bytearray(iterable)]: every element has to be a byte. *)
Definition bytearray (l : list Z) : result (list Z) :=
  if decide (Forall is_byte l) then Ok l else Raise ValueError.

(** [bytearray(n)]: [n] zero bytes. *)
Definition zeros (n : nat) : list Z := replicate n 0.

(** A Python index: negative ones count from the end. *)
Definition index {A} (l : list A) (i : Z) : option nat :=
  if decide (0 ≤ i < len l) then Some (Z.to_nat i)
  else if decide (- len l ≤ i < 0) then Some (Z.to_nat (i + len l))
  else None.

(** [l[i]] *)
Definition getitem (l : list Z) (i : Z) : result Z :=
  match index l i with
  | Some n => match l !! n with Some v => Ok v | None => Raise IndexError end
  | None => Raise IndexError
  end.

(** [b[i] = v] on a bytearray: the index is checked, then the value. *)
Definition setitem (l : list Z) (i : Z) (v : Z) : result (list Z) :=
  match index l i with
  | Some n => if decide (is_byte v) then Ok (<[n:=v]> l) else Raise ValueError
  | None => Raise IndexError
  end.

(** [b + x] and [b += x] on a bytearray: [x] has to hold bytes (a string
    or a bytearray). *)
Definition concat (l x : list Z) : result (list Z) :=
  if decide (Forall is_byte x) then Ok (l ++ x) else Raise TypeError.

(** [b.append(v)] *)
Definition append (l : list Z) (v : Z) : result (list Z) :=
  if decide (is_byte v) then Ok (l ++ [v]) else Raise ValueError.

(** [l[a:b]] for [0 <= a], the only slices the module takes; a bound
    past the end is clamped, as Python does. *)
Definition slice {A} (l : list A) (a b : Z) : list A :=
  take (Z.to_nat (b - a)) (drop (Z.to_nat a) l).

(** [l[a:]] *)
Definition slice_from {A} (l : list A) (a : Z) : list A :=
  drop (Z.to_nat a) l.

(** [b[a:b'] = vs] on a bytearray, [0 <= a]: the right-hand side is
    converted with [bytearray] first, the result may change length. *)
Definition setslice (l : list Z) (a b : Z) (vs : list Z) : result (list Z) :=
  vs' ← bytearray vs;
  mret (take (Z.to_nat a) l ++ vs' ++ drop (Z.to_nat (Z.max a b)) l).

(** [b[a:] = vs] *)
Definition setslice_from (l : list Z) (a : Z) (vs : list Z) : result (list Z) :=
  vs' ← bytearray vs;
  mret (take (Z.to_nat a) l ++ vs').

(** [struct.pack('<H', n)]: two bytes, least significant first. *)
Definition pack_H (n : Z) : result (list Z) :=
  if decide (0 ≤ n ≤ 65535) then Ok [n `mod` 256; n `div` 256]
  else Raise StructError.

(** [struct.unpack('<H', s)[0]]: exactly two bytes are required. *)
Definition unpack_H (s : list Z) : result Z :=
  match s with
  | [lo; hi] => Ok (lo + 256 * hi)
  | _ => Raise StructError
  end.

End Py.

(** ** Constants

    [ant.core.constants] supplies the sync byte and the message type
    codes; the module only names them, so they are parameters here. *)
Class Constants : Type := {
  MESSAGE_TX_SYNC : Z;
  MESSAGE_CHANNEL_UNASSIGN : Z;
  MESSAGE_CHANNEL_ASSIGN : Z;
  MESSAGE_CHANNEL_ID : Z;
  MESSAGE_CHANNEL_PERIOD : Z;
  MESSAGE_CHANNEL_SEARCH_TIMEOUT : Z;
  MESSAGE_CHANNEL_FREQUENCY : Z;
  MESSAGE_CHANNEL_TX_POWER : Z;
  MESSAGE_NETWORK_KEY : Z;
  MESSAGE_TX_POWER : Z;
  MESSAGE_SYSTEM_RESET : Z;
  MESSAGE_CHANNEL_OPEN : Z;
  MESSAGE_CHANNEL_CLOSE : Z;
  MESSAGE_CHANNEL_REQUEST : Z;
  MESSAGE_CHANNEL_BROADCAST_DATA : Z;
  MESSAGE_CHANNEL_ACKNOWLEDGED_DATA : Z;
  MESSAGE_CHANNEL_BURST_DATA : Z;
  MESSAGE_CHANNEL_EVENT : Z;
  MESSAGE_CHANNEL_STATUS : Z;
  MESSAGE_VERSION : Z;
  MESSAGE_CAPABILITIES : Z;
  MESSAGE_SERIAL_NUMBER : Z;
  MESSAGE_STARTUP : Z;
}.

(** The type codes, in the order [TYPE_TABLE] lists them. *)
Definition type_codes `{Constants} : list Z :=
  [ MESSAGE_CHANNEL_UNASSIGN; MESSAGE_CHANNEL_ASSIGN; MESSAGE_CHANNEL_ID;
    MESSAGE_CHANNEL_PERIOD; MESSAGE_CHANNEL_SEARCH_TIMEOUT;
    MESSAGE_CHANNEL_FREQUENCY; MESSAGE_CHANNEL_TX_POWER; MESSAGE_NETWORK_KEY;
    MESSAGE_TX_POWER; MESSAGE_SYSTEM_RESET; MESSAGE_CHANNEL_OPEN;
    MESSAGE_CHANNEL_CLOSE; MESSAGE_CHANNEL_REQUEST;
    MESSAGE_CHANNEL_BROADCAST_DATA; MESSAGE_CHANNEL_ACKNOWLEDGED_DATA;
    MESSAGE_CHANNEL_BURST_DATA; MESSAGE_CHANNEL_EVENT; MESSAGE_CHANNEL_STATUS;
    MESSAGE_VERSION; MESSAGE_CAPABILITIES; MESSAGE_SERIAL_NUMBER;
    MESSAGE_STARTUP ].

(** What the protocol asks of the constants: all of them are bytes. *)
Definition constants_ok (K : Constants) : Prop :=
  Py.is_byte MESSAGE_TX_SYNC ∧ Forall Py.is_byte type_codes.

#[global] Instance constants_ok_dec K : Decision (constants_ok K).
Proof. unfold constants_ok. apply _. Defined.

(** Modelled from the spec: [ant/core/constants.py] is not among the
    files this development is written from.  The spec fixes the sync byte
    ([0xA4]) and the type code of a channel-open request ([0x4B]); the
    other codes are those of the ANT message protocol.  This instance
    only serves to run the model on concrete frames; every general
    statement below is over an arbitrary [Constants]. *)
Definition ant_constants : Constants := {|
  MESSAGE_TX_SYNC := 0xA4;
  MESSAGE_CHANNEL_UNASSIGN := 0x41;
  MESSAGE_CHANNEL_ASSIGN := 0x42;
  MESSAGE_CHANNEL_ID := 0x51;
  MESSAGE_CHANNEL_PERIOD := 0x43;
  MESSAGE_CHANNEL_SEARCH_TIMEOUT := 0x44;
  MESSAGE_CHANNEL_FREQUENCY := 0x45;
  MESSAGE_CHANNEL_TX_POWER := 0x60;
  MESSAGE_NETWORK_KEY := 0x46;
  MESSAGE_TX_POWER := 0x47;
  MESSAGE_SYSTEM_RESET := 0x4A;
  MESSAGE_CHANNEL_OPEN := 0x4B;
  MESSAGE_CHANNEL_CLOSE := 0x4C;
  MESSAGE_CHANNEL_REQUEST := 0x4D;
  MESSAGE_CHANNEL_BROADCAST_DATA := 0x4E;
  MESSAGE_CHANNEL_ACKNOWLEDGED_DATA := 0x4F;
  MESSAGE_CHANNEL_BURST_DATA := 0x50;
  MESSAGE_CHANNEL_EVENT := 0x40;
  MESSAGE_CHANNEL_STATUS := 0x52;
  MESSAGE_VERSION := 0x3E;
  MESSAGE_CAPABILITIES := 0x54;
  MESSAGE_SERIAL_NUMBER := 0x61;
  MESSAGE_STARTUP := 0x6F;
|}.

(** ** Objects and methods *)

(** The classes of the module. *)
Inductive Class : Type :=
| CMessage
| CChannelMessage
| CChannelUnassignMessage
| CChannelAssignMessage
| CChannelIDMessage
| CChannelPeriodMessage
| CChannelSearchTimeoutMessage
| CChannelFrequencyMessage
| CChannelTXPowerMessage
| CNetworkKeyMessage
| CTXPowerMessage
| CSystemResetMessage
| CChannelOpenMessage
| CChannelCloseMessage
| CChannelRequestMessage
| CRequestMessage
| CChannelBroadcastDataMessage
| CChannelAcknowledgedDataMessage
| CChannelBurstDataMessage
| CChannelEventMessage
| CChannelStatusMessage
| CVersionMessage
| CStartupMessage
| CCapabilitiesMessage
| CSerialNumberMessage.

#[global] Instance Class_eq_dec : EqDecision Class.
Proof. solve_decision. Defined.

(** An instance: its class and the two attributes every class shares. *)
Record Message : Type := mkMessage {
  cls : Class;
  type_ : Z;
  payload : list Z;
}.

#[global] Instance Message_eq_dec : EqDecision Message.
Proof. solve_decision. Defined.

Definition with_type (t : Z) (self : Message) : Message :=
  mkMessage (cls self) t (payload self).
Definition with_payload (p : list Z) (self : Message) : Message :=
  mkMessage (cls self) (type_ self) p.

(** A method call: the receiver before, the receiver after, and the value
    returned or the exception raised. *)
Definition method (A : Type) : Type := Message → Message * result A.

#[global] Instance method_ret : MRet method := λ A a self, (self, Ok a).
#[global] Instance method_bind : MBind method :=
  λ A B f m self,
    match m self with
    | (self', Ok a) => f a self'
    | (self', Raise e) => (self', Raise e)
    end.
#[global] Instance method_throw : MThrow exn method :=
  λ A e self, (self, Raise e).

(** Reading the receiver, and running a built-in inside a method. *)
Definition this : method Message := λ self, (self, Ok self).
Definition lift {A} (r : result A) : method A := λ self, (self, r).

(** [self.type_ = t] and [self.payload = p] *)
Definition assign_type (t : Z) : method unit :=
  λ self, (with_type t self, Ok ()).
Definition assign_payload (p : list Z) : method unit :=
  λ self, (with_payload p self, Ok ()).

(** [Cls(...)]: [__init__] runs on a fresh instance, which is returned
    unless [__init__] raises.  The attributes of a fresh instance are
    unset; every [__init__] of the module assigns both before reading
    either, so the placeholders below are never observed. *)
Definition new (c : Class) (init : method unit) : result Message :=
  match init (mkMessage c 0 []) with
  | (self, Ok _) => Ok self
  | (_, Raise e) => Raise e
  end.

(** [obj.m(...)] on an object other than the receiver. *)
Definition invoke {A} (obj : Message) (m : method A) : result (Message * A) :=
  match m obj with
  | (obj', Ok a) => Ok (obj', a)
  | (_, Raise e) => Raise e
  end.

(** [self.payload[i]] and [self.payload[i] = v] *)
Definition payload_get (i : Z) : method Z :=
  self ← this; lift (Py.getitem (payload self) i).
Definition payload_set (i v : Z) : method () :=
  self ← this;
  p ← lift (Py.setitem (payload self) i v);
  assign_payload p.

(** ** class Message *)

Module Message.

Definition INCOMPLETE : string := "incomplete".
Definition CORRUPTED : string := "corrupted".
Definition MALFORMED : string := "malformed".

Definition getPayload : method (list Z) :=
  self ← this; mret (payload self).

Definition setPayload (p : list Z) : method () :=
  if decide (Py.len p > 9)
  then mthrow (MessageError "Could not set payload (payload too long)."
                            (Some MALFORMED))
  else assign_payload p.

Definition getType : method Z :=
  self ← this; mret (type_ self).

Definition setType (t : Z) : method () :=
  if decide (t > 0xFF ∨ t < 0x00)
  then mthrow (MessageError "Could not set type (type out of range)."
                            (Some CORRUPTED))
  else assign_type t.

(** [payload=None] stands for the empty bytearray. *)
Definition __init__ (t : Z) (p : option (list Z)) : method () :=
  setType t;;
  setPayload (match p with Some p => p | None => [] end).

Definition getChecksum `{Constants} : method Z :=
  self ← this;
  let checksum := MESSAGE_TX_SYNC in
  let checksum := Z.lxor checksum (Py.len (payload self)) in
  let checksum := Z.lxor checksum (type_ self) in
  mret (foldl Z.lxor checksum (payload self)).

Definition getSize : method Z :=
  self ← this; mret (Py.len (payload self) + 4).

Definition encode `{Constants} : method (list Z) :=
  self ← this;
  raw ← lift (Py.bytearray
                [MESSAGE_TX_SYNC; Py.len (payload self); type_ self]);
  raw ← lift (Py.concat raw (payload self));
  checksum ← getChecksum;
  lift (Py.append raw checksum).

Definition decode `{Constants} (raw : list Z) : method Z :=
  raw ← lift (Py.bytearray raw);
  if decide (Py.len raw < 5)
  then mthrow (MessageError "Could not decode (message is incomplete)."
                            (Some INCOMPLETE))
  else
    match Py.slice raw 0 3 with
    | [sync; length; t] =>
        if decide (sync ≠ MESSAGE_TX_SYNC)
        then mthrow (MessageError "Could not decode (expected TX sync)."
                                  (Some CORRUPTED))
        else if decide (length > 9)
        then mthrow (MessageError "Could not decode (payload too long)."
                                  (Some MALFORMED))
        else if decide (Py.len raw < length + 4)
        then mthrow (MessageError "Could not decode (message is incomplete)."
                                  (Some INCOMPLETE))
        else
          setType t;;
          setPayload (Py.slice raw 3 (length + 3));;
          checksum ← getChecksum;
          last ← lift (Py.getitem raw (length + 3));
          if decide (checksum ≠ last)
          then mthrow (MessageError "Could not decode (bad checksum)."
                                    (Some CORRUPTED))
          else getSize
    | _ => mthrow ValueError
    end.

End Message.

(** ** class ChannelMessage(Message) *)

Module ChannelMessage.

Definition getChannelNumber : method Z := payload_get 0.

Definition setChannelNumber (number : Z) : method () :=
  if decide (number > 0xFF ∨ number < 0x00)
  then mthrow (MessageError "Could not set channel number (out of range)."
                            None)
  else payload_set 0 number.

(** [payload=''] and [number=0x00] are the defaults. *)
Definition __init__ (t : Z) (p : list Z) (number : Z) : method () :=
  p ← lift (Py.concat (Py.zeros 1) p);
  Message.__init__ t (Some p);;
  setChannelNumber number.

End ChannelMessage.

(** ** Config messages *)

Module ChannelUnassignMessage.

Definition __init__ `{Constants} (number : Z) : method () :=
  ChannelMessage.__init__ MESSAGE_CHANNEL_UNASSIGN [] number.

End ChannelUnassignMessage.

Module ChannelAssignMessage.

Definition getChannelType : method Z := payload_get 1.
Definition setChannelType (t : Z) : method () := payload_set 1 t.
Definition getNetworkNumber : method Z := payload_get 2.
Definition setNetworkNumber (number : Z) : method () := payload_set 2 number.

Definition __init__ `{Constants} (number t network : Z) : method () :=
  ChannelMessage.__init__ MESSAGE_CHANNEL_ASSIGN (Py.zeros 2) number;;
  setChannelType t;;
  setNetworkNumber network.

End ChannelAssignMessage.

Module ChannelIDMessage.

Definition getDeviceNumber : method Z :=
  self ← this; lift (Py.unpack_H (Py.slice (payload self) 1 3)).

Definition setDeviceNumber (device_number : Z) : method () :=
  self ← this;
  packed ← lift (Py.pack_H device_number);
  p ← lift (Py.setslice (payload self) 1 3 packed);
  assign_payload p.

Definition getDeviceType : method Z := payload_get 3.
Definition setDeviceType (device_type : Z) : method () :=
  payload_set 3 device_type.
Definition getTransmissionType : method Z := payload_get 4.
Definition setTransmissionType (trans_type : Z) : method () :=
  payload_set 4 trans_type.

Definition __init__ `{Constants}
    (number device_number device_type trans_type : Z) : method () :=
  ChannelMessage.__init__ MESSAGE_CHANNEL_ID (Py.zeros 4) number;;
  setDeviceNumber device_number;;
  setDeviceType device_type;;
  setTransmissionType trans_type.

End ChannelIDMessage.

Module ChannelPeriodMessage.

Definition getChannelPeriod : method Z :=
  self ← this; lift (Py.unpack_H (Py.slice (payload self) 1 3)).

Definition setChannelPeriod (period : Z) : method () :=
  self ← this;
  packed ← lift (Py.pack_H period);
  p ← lift (Py.setslice (payload self) 1 3 packed);
  assign_payload p.

Definition __init__ `{Constants} (number period : Z) : method () :=
  ChannelMessage.__init__ MESSAGE_CHANNEL_PERIOD (Py.zeros 2) number;;
  setChannelPeriod period.

End ChannelPeriodMessage.

Module ChannelSearchTimeoutMessage.

Definition getTimeout : method Z := payload_get 1.
Definition setTimeout (timeout : Z) : method () := payload_set 1 timeout.

Definition __init__ `{Constants} (number timeout : Z) : method () :=
  ChannelMessage.__init__ MESSAGE_CHANNEL_SEARCH_TIMEOUT (Py.zeros 1) number;;
  setTimeout timeout.

End ChannelSearchTimeoutMessage.

Module ChannelFrequencyMessage.

Definition getFrequency : method Z := payload_get 1.
Definition setFrequency (frequency : Z) : method () := payload_set 1 frequency.

Definition __init__ `{Constants} (number frequency : Z) : method () :=
  ChannelMessage.__init__ MESSAGE_CHANNEL_FREQUENCY (Py.zeros 1) number;;
  setFrequency frequency.

End ChannelFrequencyMessage.

Module ChannelTXPowerMessage.

Definition getPower : method Z := payload_get 1.
Definition setPower (power : Z) : method () := payload_set 1 power.

Definition __init__ `{Constants} (number power : Z) : method () :=
  ChannelMessage.__init__ MESSAGE_CHANNEL_TX_POWER (Py.zeros 1) number;;
  setPower power.

End ChannelTXPowerMessage.

Module NetworkKeyMessage.

Definition getNumber : method Z := payload_get 0.
Definition setNumber (number : Z) : method () := payload_set 0 number.

Definition getKey : method (list Z) :=
  self ← this; mret (Py.slice_from (payload self) 1).

Definition setKey (key : list Z) : method () :=
  self ← this;
  p ← lift (Py.setslice_from (payload self) 1 key);
  assign_payload p.

Definition __init__ `{Constants} (number : Z) (key : list Z) : method () :=
  Message.__init__ MESSAGE_NETWORK_KEY (Some (Py.zeros 9));;
  setNumber number;;
  setKey key.

End NetworkKeyMessage.

Module TXPowerMessage.

Definition getPower : method Z := payload_get 1.
Definition setPower (power : Z) : method () := payload_set 1 power.

Definition __init__ `{Constants} (power : Z) : method () :=
  Message.__init__ MESSAGE_TX_POWER (Some (Py.zeros 2));;
  setPower power.

End TXPowerMessage.

(** ** Control messages *)

Module SystemResetMessage.

Definition __init__ `{Constants} : method () :=
  Message.__init__ MESSAGE_SYSTEM_RESET (Some (Py.zeros 1)).

End SystemResetMessage.

Module ChannelOpenMessage.

Definition __init__ `{Constants} (number : Z) : method () :=
  ChannelMessage.__init__ MESSAGE_CHANNEL_OPEN [] number.

End ChannelOpenMessage.

Module ChannelCloseMessage.

Definition __init__ `{Constants} (number : Z) : method () :=
  ChannelMessage.__init__ MESSAGE_CHANNEL_CLOSE [] number.

End ChannelCloseMessage.

Module ChannelRequestMessage.

Definition getMessageID : method Z := payload_get 1.

Definition setMessageID (message_id : Z) : method () :=
  if decide (message_id > 0xFF ∨ message_id < 0x00)
  then mthrow (MessageError "Could not set message ID (out of range)." None)
  else payload_set 1 message_id.

Definition __init__ `{Constants} (number message_id : Z) : method () :=
  ChannelMessage.__init__ MESSAGE_CHANNEL_REQUEST (Py.zeros 1) number;;
  setMessageID message_id.

End ChannelRequestMessage.

(** ** Data messages *)

Module ChannelBroadcastDataMessage.

Definition __init__ `{Constants} (number : Z) (data : list Z) : method () :=
  ChannelMessage.__init__ MESSAGE_CHANNEL_BROADCAST_DATA data number.

End ChannelBroadcastDataMessage.

Module ChannelAcknowledgedDataMessage.

Definition __init__ `{Constants} (number : Z) (data : list Z) : method () :=
  ChannelMessage.__init__ MESSAGE_CHANNEL_ACKNOWLEDGED_DATA data number.

End ChannelAcknowledgedDataMessage.

Module ChannelBurstDataMessage.

Definition __init__ `{Constants} (number : Z) (data : list Z) : method () :=
  ChannelMessage.__init__ MESSAGE_CHANNEL_BURST_DATA data number.

End ChannelBurstDataMessage.

(** ** Channel event messages *)

Module ChannelEventMessage.

Definition getMessageID : method Z := payload_get 1.

Definition setMessageID (message_id : Z) : method () :=
  if decide (message_id > 0xFF ∨ message_id < 0x00)
  then mthrow (MessageError "Could not set message ID (out of range)." None)
  else payload_set 1 message_id.

Definition getMessageCode : method Z := payload_get 2.

Definition setMessageCode (message_code : Z) : method () :=
  if decide (message_code > 0xFF ∨ message_code < 0x00)
  then mthrow (MessageError "Could not set message code (out of range)." None)
  else payload_set 2 message_code.

Definition __init__ `{Constants}
    (number message_id message_code : Z) : method () :=
  ChannelMessage.__init__ MESSAGE_CHANNEL_EVENT (Py.zeros 2) number;;
  setMessageID message_id;;
  setMessageCode message_code.

End ChannelEventMessage.

(** ** Requested response messages *)

Module ChannelStatusMessage.

Definition getStatus : method Z := payload_get 1.

Definition setStatus (status : Z) : method () :=
  if decide (status > 0xFF ∨ status < 0x00)
  then mthrow (MessageError "Could not set channel status (out of range)."
                            None)
  else payload_set 1 status.

Definition __init__ `{Constants} (number status : Z) : method () :=
  ChannelMessage.__init__ MESSAGE_CHANNEL_STATUS (Py.zeros 1) number;;
  setStatus status.

End ChannelStatusMessage.

Module VersionMessage.

Definition getVersion : method (list Z) := Message.getPayload.

Definition setVersion (version : list Z) : method () :=
  if decide (Py.len version ≠ 9)
  then mthrow (MessageError "Could not set ANT version (expected 9 bytes)."
                            None)
  else
    v ← lift (Py.bytearray version);
    Message.setPayload v.

Definition __init__ `{Constants} (version : list Z) : method () :=
  Message.__init__ MESSAGE_VERSION (Some (Py.zeros 9));;
  setVersion version.

End VersionMessage.

Module StartupMessage.

Definition getStartupMessage : method Z := payload_get 0.

Definition setStartupMessage (startupMessage : Z) : method () :=
  if decide (startupMessage > 0xFF ∨ startupMessage < 0x00)
  then mthrow (MessageError "Could not set start-up message (out of range)."
                            None)
  else payload_set 0 startupMessage.

Definition __init__ `{Constants} (startupMessage : Z) : method () :=
  Message.__init__ MESSAGE_STARTUP (Some (Py.zeros 1));;
  setStartupMessage startupMessage.

End StartupMessage.

Module CapabilitiesMessage.

Definition getMaxChannels : method Z := payload_get 0.
Definition getMaxNetworks : method Z := payload_get 1.
Definition getStdOptions : method Z := payload_get 2.
Definition getAdvOptions : method Z := payload_get 3.

Definition getAdvOptions2 : method Z :=
  self ← this;
  if decide (Py.len (payload self) = 5) then payload_get 4 else mret 0x00.

Definition setMaxChannels (num : Z) : method () :=
  if decide (num > 0xFF ∨ num < 0x00)
  then mthrow (MessageError "Could not set max channels (out of range)." None)
  else payload_set 0 num.

Definition setMaxNetworks (num : Z) : method () :=
  if decide (num > 0xFF ∨ num < 0x00)
  then mthrow (MessageError "Could not set max networks (out of range)." None)
  else payload_set 1 num.

Definition setStdOptions (num : Z) : method () :=
  if decide (num > 0xFF ∨ num < 0x00)
  then mthrow (MessageError "Could not set std options (out of range)." None)
  else payload_set 2 num.

Definition setAdvOptions (num : Z) : method () :=
  if decide (num > 0xFF ∨ num < 0x00)
  then mthrow (MessageError "Could not set adv options (out of range)." None)
  else payload_set 3 num.

(** [self.payload.append('\x00')]: a one-character string is appended as
    its byte. *)
Definition setAdvOptions2 (num : Z) : method () :=
  if decide (num > 0xFF ∨ num < 0x00)
  then mthrow (MessageError "Could not set adv options 2 (out of range)."
                            None)
  else
    self ← this;
    (if decide (Py.len (payload self) = 4)
     then p ← lift (Py.append (payload self) 0x00); assign_payload p
     else mret ());;
    payload_set 4 num.

(** [adv_opts2] is [None] or a number; its default is [0x00]. *)
Definition __init__ `{Constants}
    (max_channels max_nets std_opts adv_opts : Z) (adv_opts2 : option Z)
    : method () :=
  Message.__init__ MESSAGE_CAPABILITIES (Some (Py.zeros 4));;
  setMaxChannels max_channels;;
  setMaxNetworks max_nets;;
  setStdOptions std_opts;;
  setAdvOptions adv_opts;;
  match adv_opts2 with
  | Some v => setAdvOptions2 v
  | None => mret ()
  end.

End CapabilitiesMessage.

Module SerialNumberMessage.

Definition getSerialNumber : method (list Z) := Message.getPayload.

Definition setSerialNumber (serial : list Z) : method () :=
  if decide (Py.len serial ≠ 4)
  then mthrow (MessageError "Could not set serial number (expected 4 bytes)."
                            None)
  else
    s ← lift (Py.bytearray serial);
    Message.setPayload s.

Definition __init__ `{Constants} (serial : list Z) : method () :=
  Message.__init__ MESSAGE_SERIAL_NUMBER None;;
  setSerialNumber serial.

End SerialNumberMessage.

(** ** The type registry and the dispatch on it *)

(** [cls()]: the call of a class without arguments, every parameter of
    its [__init__] at its default.  [ChannelMessage] has a parameter
    without default. *)
Definition instantiate `{Constants} (c : Class) : result Message :=
  match c with
  | CMessage => new c (Message.__init__ 0x00 None)
  | CChannelMessage => Raise TypeError
  | CChannelUnassignMessage => new c (ChannelUnassignMessage.__init__ 0x00)
  | CChannelAssignMessage =>
      new c (ChannelAssignMessage.__init__ 0x00 0x00 0x00)
  | CChannelIDMessage =>
      new c (ChannelIDMessage.__init__ 0x00 0x0000 0x00 0x00)
  | CChannelPeriodMessage => new c (ChannelPeriodMessage.__init__ 0x00 8192)
  | CChannelSearchTimeoutMessage =>
      new c (ChannelSearchTimeoutMessage.__init__ 0x00 0xFF)
  | CChannelFrequencyMessage =>
      new c (ChannelFrequencyMessage.__init__ 0x00 66)
  | CChannelTXPowerMessage => new c (ChannelTXPowerMessage.__init__ 0x00 0x00)
  | CNetworkKeyMessage =>
      new c (NetworkKeyMessage.__init__ 0x00 (replicate 8 0x00))
  | CTXPowerMessage => new c (TXPowerMessage.__init__ 0x00)
  | CSystemResetMessage => new c SystemResetMessage.__init__
  | CChannelOpenMessage => new c (ChannelOpenMessage.__init__ 0x00)
  | CChannelCloseMessage => new c (ChannelCloseMessage.__init__ 0x00)
  | CChannelRequestMessage | CRequestMessage =>
      new c (ChannelRequestMessage.__init__ 0x00 MESSAGE_CHANNEL_STATUS)
  | CChannelBroadcastDataMessage =>
      new c (ChannelBroadcastDataMessage.__init__ 0x00 (replicate 7 0x00))
  | CChannelAcknowledgedDataMessage =>
      new c (ChannelAcknowledgedDataMessage.__init__ 0x00 (replicate 7 0x00))
  | CChannelBurstDataMessage =>
      new c (ChannelBurstDataMessage.__init__ 0x00 (replicate 7 0x00))
  | CChannelEventMessage =>
      new c (ChannelEventMessage.__init__ 0x00 0x00 0x00)
  | CChannelStatusMessage => new c (ChannelStatusMessage.__init__ 0x00 0x00)
  | CVersionMessage => new c (VersionMessage.__init__ (replicate 9 0x00))
  | CStartupMessage => new c (StartupMessage.__init__ 0x00)
  | CCapabilitiesMessage =>
      new c (CapabilitiesMessage.__init__ 0x00 0x00 0x00 0x00 (Some 0x00))
  | CSerialNumberMessage =>
      new c (SerialNumberMessage.__init__ (replicate 4 0x00))
  end.

(** The entries of the dictionary display, in source order. *)
Definition TYPE_TABLE_entries `{Constants} : list (Z * Class) :=
  [ (MESSAGE_CHANNEL_UNASSIGN, CChannelUnassignMessage);
    (MESSAGE_CHANNEL_ASSIGN, CChannelAssignMessage);
    (MESSAGE_CHANNEL_ID, CChannelIDMessage);
    (MESSAGE_CHANNEL_PERIOD, CChannelPeriodMessage);
    (MESSAGE_CHANNEL_SEARCH_TIMEOUT, CChannelSearchTimeoutMessage);
    (MESSAGE_CHANNEL_FREQUENCY, CChannelFrequencyMessage);
    (MESSAGE_CHANNEL_TX_POWER, CChannelTXPowerMessage);
    (MESSAGE_NETWORK_KEY, CNetworkKeyMessage);
    (MESSAGE_TX_POWER, CTXPowerMessage);
    (MESSAGE_SYSTEM_RESET, CSystemResetMessage);
    (MESSAGE_CHANNEL_OPEN, CChannelOpenMessage);
    (MESSAGE_CHANNEL_CLOSE, CChannelCloseMessage);
    (MESSAGE_CHANNEL_REQUEST, CChannelRequestMessage);
    (MESSAGE_CHANNEL_BROADCAST_DATA, CChannelBroadcastDataMessage);
    (MESSAGE_CHANNEL_ACKNOWLEDGED_DATA, CChannelAcknowledgedDataMessage);
    (MESSAGE_CHANNEL_BURST_DATA, CChannelBurstDataMessage);
    (MESSAGE_CHANNEL_EVENT, CChannelEventMessage);
    (MESSAGE_CHANNEL_STATUS, CChannelStatusMessage);
    (MESSAGE_VERSION, CVersionMessage);
    (MESSAGE_CAPABILITIES, CCapabilitiesMessage);
    (MESSAGE_SERIAL_NUMBER, CSerialNumberMessage);
    (MESSAGE_STARTUP, CStartupMessage) ].

(** A dictionary display is evaluated left to right, a repeated key
    keeping its last value. *)
Definition dict_display {V} (entries : list (Z * V)) : gmap Z V :=
  foldl (λ d kv, <[kv.1 := kv.2]> d) ∅ entries.

Definition TYPE_TABLE `{Constants} : gmap Z Class :=
  dict_display TYPE_TABLE_entries.

(** [d[k]] on a dictionary *)
Definition dict_get {V} (d : gmap Z V) (k : Z) : result V :=
  match d !! k with
  | Some v => Ok v
  | None => Raise (KeyError k)
  end.

(** [Message.getHandler] *)
Definition getHandler `{Constants} (raw : list Z) : method Message :=
  Message.decode raw;;
  self ← this;
  c ← lift (dict_get TYPE_TABLE (type_ self));
  msg ← lift (instantiate c);
  '(msg, _) ← lift (invoke msg (Message.setPayload (payload self)));
  mret msg.

(** * The vocabulary of the properties *)

(** The spec's words for the checksum: the XOR of all the bytes listed. *)
Definition xor_all (l : list Z) : Z := foldr Z.lxor 0 l.

(** The four exceptions [decode] raises itself. *)
Definition decode_incomplete : exn :=
  MessageError "Could not decode (message is incomplete)."
               (Some Message.INCOMPLETE).
Definition decode_bad_sync : exn :=
  MessageError "Could not decode (expected TX sync)." (Some Message.CORRUPTED).
Definition decode_too_long : exn :=
  MessageError "Could not decode (payload too long)." (Some Message.MALFORMED).
Definition decode_bad_checksum : exn :=
  MessageError "Could not decode (bad checksum)." (Some Message.CORRUPTED).

(** A call fails with a [MessageError] of the given category. *)
Definition fails_with {A} (category : string) (out : Message * result A) : Prop :=
  ∃ msg, out.2 = Raise (MessageError msg (Some category)).

(** The bounds the spec states for every message. *)
Definition invariant (m : Message) : Prop :=
  0 ≤ type_ m ≤ 255 ∧ Py.len (payload m) ≤ 9.

(** The round trip as the spec words it: the message built from [t] and
    [p] encodes to a frame whose decoding, into any message, succeeds with
    type [t], payload [p] and [len(p) + 4] bytes consumed. *)
Definition roundtrip `{Constants} (t : Z) (p : list Z) : Prop :=
  ∃ m raw,
    new CMessage (Message.__init__ t (Some p)) = Ok m
    ∧ Message.encode m = (m, Ok raw)
    ∧ ∀ self, Message.decode raw self
              = (mkMessage (cls self) t p, Ok (Py.len p + 4)).

(** The frame with bit [k] of the byte at offset [i] flipped. *)
Definition flip_bit (raw : list Z) (i : nat) (k : Z) : list Z :=
  alter (λ b, Z.lxor b (2 ^ k)) i raw.

(** What [decode] makes of the frame of the message built from [t] and
    [p] once bit [k] of its byte [i] is flipped. *)
Definition after_flip `{Constants} (t : Z) (p : list Z) (i : nat) (k : Z)
    (outcome : Message * result Z → Prop) : Prop :=
  ∃ m raw,
    new CMessage (Message.__init__ t (Some p)) = Ok m
    ∧ Message.encode m = (m, Ok raw)
    ∧ ∀ self, outcome (Message.decode (flip_bit raw i k) self).

(** The flip is detected as the spec words it: [decode] fails Corrupted. *)
Definition flip_detected `{Constants} (t : Z) (p : list Z) (i : nat) (k : Z)
    : Prop :=
  after_flip t p i k (fails_with Message.CORRUPTED).

(** The spec's words, on the call that sets nothing explicitly: the
    payload of [CapabilitiesMessage()] has 4 bytes. *)
Definition capabilities_unset_has_4_bytes `{Constants} : Prop :=
  ∃ m, instantiate CCapabilitiesMessage = Ok m ∧ Py.len (payload m) = 4.

(** The payload of [cls()], class by class: what the [__init__] of the
    class leaves when every parameter is at its default. *)
Definition default_payload `{Constants} (c : Class) : list Z :=
  match c with
  | CMessage | CChannelMessage => []
  | CChannelUnassignMessage | CChannelOpenMessage | CChannelCloseMessage
  | CSystemResetMessage | CStartupMessage => [0]
  | CChannelAssignMessage | CChannelEventMessage => [0; 0; 0]
  | CChannelIDMessage | CCapabilitiesMessage => [0; 0; 0; 0; 0]
  | CChannelPeriodMessage => [0; 0x00; 0x20]
  | CChannelSearchTimeoutMessage => [0; 0xFF]
  | CChannelFrequencyMessage => [0; 66]
  | CChannelTXPowerMessage | CTXPowerMessage | CChannelStatusMessage => [0; 0]
  | CChannelRequestMessage | CRequestMessage => [0; MESSAGE_CHANNEL_STATUS]
  | CChannelBroadcastDataMessage | CChannelAcknowledgedDataMessage
  | CChannelBurstDataMessage => replicate 8 0
  | CNetworkKeyMessage | CVersionMessage => replicate 9 0
  | CSerialNumberMessage => replicate 4 0
  end.

(** The one-byte fields of the message classes: setter, getter and the
    offset of the field in the payload. *)
Definition byte_fields : list ((Z → method ()) * method Z * Z) :=
  [ (ChannelMessage.setChannelNumber, ChannelMessage.getChannelNumber, 0);
    (ChannelAssignMessage.setChannelType,
     ChannelAssignMessage.getChannelType, 1);
    (ChannelAssignMessage.setNetworkNumber,
     ChannelAssignMessage.getNetworkNumber, 2);
    (ChannelIDMessage.setDeviceType, ChannelIDMessage.getDeviceType, 3);
    (ChannelIDMessage.setTransmissionType,
     ChannelIDMessage.getTransmissionType, 4);
    (ChannelSearchTimeoutMessage.setTimeout,
     ChannelSearchTimeoutMessage.getTimeout, 1);
    (ChannelFrequencyMessage.setFrequency,
     ChannelFrequencyMessage.getFrequency, 1);
    (ChannelTXPowerMessage.setPower, ChannelTXPowerMessage.getPower, 1);
    (NetworkKeyMessage.setNumber, NetworkKeyMessage.getNumber, 0);
    (TXPowerMessage.setPower, TXPowerMessage.getPower, 1);
    (ChannelRequestMessage.setMessageID,
     ChannelRequestMessage.getMessageID, 1);
    (ChannelEventMessage.setMessageID, ChannelEventMessage.getMessageID, 1);
    (ChannelEventMessage.setMessageCode,
     ChannelEventMessage.getMessageCode, 2);
    (ChannelStatusMessage.setStatus, ChannelStatusMessage.getStatus, 1);
    (StartupMessage.setStartupMessage, StartupMessage.getStartupMessage, 0);
    (CapabilitiesMessage.setMaxChannels,
     CapabilitiesMessage.getMaxChannels, 0);
    (CapabilitiesMessage.setMaxNetworks,
     CapabilitiesMessage.getMaxNetworks, 1);
    (CapabilitiesMessage.setStdOptions, CapabilitiesMessage.getStdOptions, 2);
    (CapabilitiesMessage.setAdvOptions, CapabilitiesMessage.getAdvOptions, 3) ].

(** The setters that test the range of their argument themselves, each
    with the name its error message gives the field. *)
Definition guarded_setters : list ((Z → method ()) * string) :=
  [ (ChannelMessage.setChannelNumber, "channel number");
    (ChannelRequestMessage.setMessageID, "message ID");
    (ChannelEventMessage.setMessageID, "message ID");
    (ChannelEventMessage.setMessageCode, "message code");
    (ChannelStatusMessage.setStatus, "channel status");
    (StartupMessage.setStartupMessage, "start-up message");
    (CapabilitiesMessage.setMaxChannels, "max channels");
    (CapabilitiesMessage.setMaxNetworks, "max networks");
    (CapabilitiesMessage.setStdOptions, "std options");
    (CapabilitiesMessage.setAdvOptions, "adv options");
    (CapabilitiesMessage.setAdvOptions2, "adv options 2") ].

(** The one-byte setters that assign without a test of their own, each
    with the offset it assigns to. *)
Definition unguarded_setters : list ((Z → method ()) * Z) :=
  [ (ChannelAssignMessage.setChannelType, 1);
    (ChannelAssignMessage.setNetworkNumber, 2);
    (ChannelIDMessage.setDeviceType, 3);
    (ChannelIDMessage.setTransmissionType, 4);
    (ChannelSearchTimeoutMessage.setTimeout, 1);
    (ChannelFrequencyMessage.setFrequency, 1);
    (ChannelTXPowerMessage.setPower, 1);
    (NetworkKeyMessage.setNumber, 0);
    (TXPowerMessage.setPower, 1) ].

(** Unfolding the accessors of the one-byte fields. *)
Ltac unfold_fields :=
  unfold ChannelMessage.setChannelNumber, ChannelMessage.getChannelNumber,
    ChannelAssignMessage.setChannelType, ChannelAssignMessage.getChannelType,
    ChannelAssignMessage.setNetworkNumber,
    ChannelAssignMessage.getNetworkNumber,
    ChannelIDMessage.setDeviceType, ChannelIDMessage.getDeviceType,
    ChannelIDMessage.setTransmissionType,
    ChannelIDMessage.getTransmissionType,
    ChannelSearchTimeoutMessage.setTimeout,
    ChannelSearchTimeoutMessage.getTimeout,
    ChannelFrequencyMessage.setFrequency, ChannelFrequencyMessage.getFrequency,
    ChannelTXPowerMessage.setPower, ChannelTXPowerMessage.getPower,
    NetworkKeyMessage.setNumber, NetworkKeyMessage.getNumber,
    TXPowerMessage.setPower, TXPowerMessage.getPower,
    ChannelRequestMessage.setMessageID, ChannelRequestMessage.getMessageID,
    ChannelEventMessage.setMessageID, ChannelEventMessage.getMessageID,
    ChannelEventMessage.setMessageCode, ChannelEventMessage.getMessageCode,
    ChannelStatusMessage.setStatus, ChannelStatusMessage.getStatus,
    StartupMessage.setStartupMessage, StartupMessage.getStartupMessage,
    CapabilitiesMessage.setMaxChannels, CapabilitiesMessage.getMaxChannels,
    CapabilitiesMessage.setMaxNetworks, CapabilitiesMessage.getMaxNetworks,
    CapabilitiesMessage.setStdOptions, CapabilitiesMessage.getStdOptions,
    CapabilitiesMessage.setAdvOptions, CapabilitiesMessage.getAdvOptions,
    CapabilitiesMessage.setAdvOptions2.

(** The setters that take a number: those of the one-byte fields, of the
    two-byte fields, of advanced options 2 and of the type. *)
Definition number_setters : list (Z → method ()) :=
  byte_fields.*1.*1
  ++ [ CapabilitiesMessage.setAdvOptions2; ChannelIDMessage.setDeviceNumber;
       ChannelPeriodMessage.setChannelPeriod; Message.setType ].

(** * Proof tactics *)

(** Unfolding the plumbing of a method body down to its tests. *)
Ltac run :=
  cbv beta iota zeta delta
    [mbind mret mthrow method_bind method_ret method_throw
     result_bind result_ret result_throw this lift invoke new
     assign_type assign_payload with_type with_payload
     payload_get payload_set];
  cbn [cls type_ payload].

(** A literal list of bytes. *)
Ltac bytes :=
  repeat (apply List.Forall_cons; [done|]); try apply List.Forall_nil;
  try done.

(** Equations between XORs, bit by bit. *)
Ltac xor_bits :=
  apply Z.bits_inj; intros ?n; rewrite ?Z.lxor_spec;
  repeat match goal with
         | |- context [Z.testbit ?a ?n] => destruct (Z.testbit a n)
         end;
  reflexivity.

(** * Properties *)

(** ** Bytes and the running XOR *)

Lemma byte_log2 a : Py.is_byte a → Z.log2 a < 8.
Proof.
  intros [Ha Hb]. destruct (decide (a = 0)) as [->|Hne]; [done|].
  apply Z.log2_lt_pow2; lia.
Qed.

Lemma lxor_byte a b : Py.is_byte a → Py.is_byte b → Py.is_byte (Z.lxor a b).
Proof.
  intros Ha Hb. pose proof (byte_log2 a Ha). pose proof (byte_log2 b Hb).
  destruct Ha as [Ha ?], Hb as [Hb ?]. split; [by apply Z.lxor_nonneg|].
  assert (0 ≤ Z.lxor a b) as Hx by by apply Z.lxor_nonneg.
  destruct (decide (Z.lxor a b = 0)) as [->|Hne]; [done|].
  change 256 with (2 ^ 8). apply Z.log2_lt_pow2; [lia|].
  pose proof (Z.log2_lxor a b Ha Hb). lia.
Qed.

Lemma xor_all_byte l : Forall Py.is_byte l → Py.is_byte (xor_all l).
Proof.
  induction 1 as [|b l Hb _ IH]; simpl; [done|]. by apply lxor_byte.
Qed.

Lemma foldl_lxor a l : foldl Z.lxor a l = Z.lxor a (xor_all l).
Proof.
  revert a. induction l as [|b l IH]; intros a; simpl.
  - by rewrite Z.lxor_0_r.
  - by rewrite IH, Z.lxor_assoc.
Qed.

Lemma len_byte {A} (l : list A) : Py.len l ≤ 9 → Py.is_byte (Py.len l).
Proof. unfold Py.len, Py.is_byte. lia. Qed.

Lemma len_app {A} (l k : list A) : Py.len (l ++ k) = Py.len l + Py.len k.
Proof. unfold Py.len. rewrite length_app. lia. Qed.

(** ** The checksum and the frame produced by [encode] *)

Lemma getChecksum_eq `{Constants} self :
  Message.getChecksum self
  = (self, Ok (xor_all (MESSAGE_TX_SYNC :: Py.len (payload self)
                          :: type_ self :: payload self))).
Proof.
  unfold Message.getChecksum. run. destruct self as [c t p]. run.
  rewrite foldl_lxor. simpl. by rewrite !Z.lxor_assoc.
Qed.

Lemma encode_eq `{Constants} self :
  Py.is_byte MESSAGE_TX_SYNC →
  0 ≤ type_ self ≤ 255 →
  Py.len (payload self) ≤ 9 →
  Forall Py.is_byte (payload self) →
  Message.encode self
  = (self, Ok ([MESSAGE_TX_SYNC; Py.len (payload self); type_ self]
               ++ payload self
               ++ [xor_all (MESSAGE_TX_SYNC :: Py.len (payload self)
                              :: type_ self :: payload self)])).
Proof.
  intros Hs Ht Hl Hp.
  assert (Py.is_byte (type_ self)) as Ht' by (unfold Py.is_byte; lia).
  pose proof (len_byte _ Hl) as Hl'.
  unfold Message.encode, Py.bytearray, Py.concat, Py.append. run.
  rewrite decide_True by bytes. rewrite decide_True by done.
  rewrite getChecksum_eq.
  rewrite decide_True by (apply xor_all_byte; bytes).
  by rewrite <- app_assoc.
Qed.

(** C3. For a message whose type is in 0..255 and whose payload is a
    sequence of at most 9 bytes, [encode] returns, without changing the
    message, the frame [SYNC, len(payload), type, payload..., checksum]:
    it has [len(payload) + 4] bytes and its last byte is the XOR of the
    sync constant, the length, the type and every payload byte. *)
Theorem encode_layout `{Constants} (self : Message) :
  Py.is_byte MESSAGE_TX_SYNC →
  0 ≤ type_ self ≤ 255 →
  Py.len (payload self) ≤ 9 →
  Forall Py.is_byte (payload self) →
  ∃ raw checksum,
    Message.encode self = (self, Ok raw)
    ∧ raw = [MESSAGE_TX_SYNC; Py.len (payload self); type_ self]
            ++ payload self ++ [checksum]
    ∧ checksum = xor_all (MESSAGE_TX_SYNC :: Py.len (payload self)
                            :: type_ self :: payload self)
    ∧ Py.len raw = Py.len (payload self) + 4.
Proof.
  intros Hs Ht Hl Hp. eexists _, _.
  split; [by apply encode_eq|]. split; [done|]. split; [done|].
  unfold Py.len. simpl. rewrite length_app. simpl. lia.
Qed.

Lemma encode_layout_witness :
  ∃ raw checksum,
    Message.encode (H:=ant_constants) (mkMessage CMessage 0x4B [0x03])
      = (mkMessage CMessage 0x4B [0x03], Ok raw)
    ∧ raw = [0xA4; 0x01; 0x4B] ++ [0x03] ++ [checksum]
    ∧ checksum = 0xED
    ∧ Py.len raw = 5.
Proof.
  apply (encode_layout (H:=ant_constants) (mkMessage CMessage 0x4B [0x03]));
    vm_compute; repeat constructor; discriminate.
Defined.

(** ** What [decode] does on a buffer *)

Lemma getitem_lookup (l : list Z) (i : Z) (v : Z) :
  0 ≤ i → l !! Z.to_nat i = Some v → Py.getitem l i = Ok v.
Proof.
  intros Hi Hv. pose proof (lookup_lt_Some _ _ _ Hv) as Hlt.
  unfold Py.getitem, Py.index, Py.len.
  rewrite decide_True by lia. by rewrite Hv.
Qed.

Lemma setType_byte t self :
  Py.is_byte t → Message.setType t self = (with_type t self, Ok ()).
Proof.
  intros [? ?]. unfold Message.setType.
  rewrite decide_False by lia. done.
Qed.

Lemma setPayload_short p self :
  Py.len p ≤ 9 → Message.setPayload p self = (with_payload p self, Ok ()).
Proof.
  intros ?. unfold Message.setPayload.
  rewrite decide_False by lia. done.
Qed.

Lemma decode_short `{Constants} raw self :
  Forall Py.is_byte raw → Py.len raw < 5 →
  Message.decode raw self = (self, Raise decode_incomplete).
Proof.
  intros Hb Hl. unfold Message.decode, Py.bytearray. run.
  rewrite decide_True by done. by rewrite decide_True by done.
Qed.

Lemma decode_not_bytes `{Constants} raw self :
  ¬ Forall Py.is_byte raw →
  Message.decode raw self = (self, Raise ValueError).
Proof.
  intros Hb. unfold Message.decode, Py.bytearray. run.
  by rewrite decide_False by done.
Qed.

(** The body of [decode] past the first length test, on a buffer split
    into its three header bytes and the rest. *)
Lemma decode_frame `{Constants} sync length t rest self :
  Forall Py.is_byte (sync :: length :: t :: rest) →
  2 ≤ Py.len rest →
  Message.decode (sync :: length :: t :: rest) self =
    if decide (sync ≠ MESSAGE_TX_SYNC) then (self, Raise decode_bad_sync)
    else if decide (length > 9) then (self, Raise decode_too_long)
    else if decide (Py.len rest < length + 1)
    then (self, Raise decode_incomplete)
    else
      let p := take (Z.to_nat length) rest in
      let self' := mkMessage (cls self) t p in
      match rest !! Z.to_nat length with
      | Some c =>
          if decide (xor_all (MESSAGE_TX_SYNC :: length :: t :: p) ≠ c)
          then (self', Raise decode_bad_checksum)
          else (self', Ok (length + 4))
      | None => (self', Raise IndexError)
      end.
Proof.
  intros Hb Hl.
  assert (Py.is_byte length ∧ Py.is_byte t) as [[Hl0 Hl1] Ht].
  { rewrite !Forall_cons in Hb. tauto. }
  unfold Message.decode, Py.bytearray. run.
  rewrite decide_True by done.
  rewrite decide_False
    by (unfold Py.len in *; cbn [List.length] in *; lia).
  change (Py.slice (sync :: length :: t :: rest) 0 3) with [sync; length; t].
  cbv beta iota.
  do 2 (case_decide; [done|]).
  assert (Py.len (sync :: length :: t :: rest) = Py.len rest + 3) as ->
    by (unfold Py.len; cbn [List.length]; lia).
  destruct (decide (Py.len rest + 3 < length + 4)),
           (decide (Py.len rest < length + 1)); try lia; [done|].
  - rewrite setType_byte by done.
    assert (Py.slice (sync :: length :: t :: rest) 3 (length + 3)
            = take (Z.to_nat length) rest) as ->.
    { unfold Py.slice. replace (length + 3 - 3) with length by lia. done. }
    assert (Py.len (take (Z.to_nat length) rest) = length) as Hlen.
    { unfold Py.len in *. rewrite length_take. lia. }
    rewrite setPayload_short by lia. run.
    rewrite getChecksum_eq. run. rewrite Hlen.
    destruct (rest !! Z.to_nat length) as [c|] eqn:Hc.
    + rewrite (getitem_lookup _ _ c); [|lia|].
      * case_decide; [done|]. unfold Message.getSize. run. by rewrite Hlen.
      * replace (Z.to_nat (length + 3)) with (3 + Z.to_nat length)%nat by lia.
        done.
    + apply lookup_ge_None in Hc. unfold Py.len in *. lia.
Qed.

(** A buffer of five bytes or more, split at its header. *)
Lemma header_split (raw : list Z) sync length t :
  5 ≤ Py.len raw →
  raw !! 0%nat = Some sync → raw !! 1%nat = Some length →
  raw !! 2%nat = Some t →
  ∃ rest, raw = sync :: length :: t :: rest ∧ 2 ≤ Py.len rest
          ∧ Py.len raw = Py.len rest + 3.
Proof.
  intros Hl H0 H1 H2. destruct raw as [|a [|b [|c rest]]];
    simplify_eq/=; try (unfold Py.len in Hl; simpl in Hl; lia).
  exists rest. unfold Py.len in *. simpl in *. split; [done|]. lia.
Qed.

Lemma slice_rest {A} (a b c : A) rest length :
  Py.slice (a :: b :: c :: rest) 3 (length + 3) = take (Z.to_nat length) rest.
Proof. unfold Py.slice. replace (length + 3 - 3) with length by lia. done. Qed.

Lemma lookup_rest {A} (a b c : A) rest length :
  0 ≤ length →
  (a :: b :: c :: rest) !! Z.to_nat (length + 3) = rest !! Z.to_nat length.
Proof.
  intros ?. replace (Z.to_nat (length + 3)) with (3 + Z.to_nat length)%nat by lia.
  done.
Qed.

(** C2. On a buffer of bytes [decode] applies its checks in this order,
    each with its own outcome: fewer than 5 bytes, Incomplete whatever the
    content; a first byte other than the sync constant, Corrupted; a
    declared length above 9, Malformed; fewer than length+4 bytes,
    Incomplete; a byte at offset length+3 that differs from the XOR of
    sync, length, type and payload, Corrupted; otherwise [decode] returns
    length+4, the message holding the type byte and the payload slice.
    The first four failures leave the message as it was. *)
Theorem decode_validation_order `{Constants} (raw : list Z) (self : Message) :
  Forall Py.is_byte raw →
  (Py.len raw < 5 → Message.decode raw self = (self, Raise decode_incomplete))
  ∧ ∀ sync length t,
      5 ≤ Py.len raw →
      raw !! 0%nat = Some sync → raw !! 1%nat = Some length →
      raw !! 2%nat = Some t →
      let p := Py.slice raw 3 (length + 3) in
      (sync ≠ MESSAGE_TX_SYNC →
         Message.decode raw self = (self, Raise decode_bad_sync))
      ∧ (sync = MESSAGE_TX_SYNC → length > 9 →
         Message.decode raw self = (self, Raise decode_too_long))
      ∧ (sync = MESSAGE_TX_SYNC → length ≤ 9 → Py.len raw < length + 4 →
         Message.decode raw self = (self, Raise decode_incomplete))
      ∧ (sync = MESSAGE_TX_SYNC → length ≤ 9 → length + 4 ≤ Py.len raw →
         ∀ c, raw !! Z.to_nat (length + 3) = Some c →
           (c ≠ xor_all (sync :: length :: t :: p) →
              Message.decode raw self
              = (mkMessage (cls self) t p, Raise decode_bad_checksum))
           ∧ (c = xor_all (sync :: length :: t :: p) →
              Message.decode raw self
              = (mkMessage (cls self) t p, Ok (length + 4)))).
Proof.
  intros Hb. split; [by apply decode_short|].
  intros sync length t Hl H0 H1 H2 p.
  destruct (header_split raw sync length t Hl H0 H1 H2)
    as (rest & -> & Hrest & Hlen).
  assert (0 ≤ length) as Hl0.
  { rewrite !Forall_cons in Hb. unfold Py.is_byte in Hb. lia. }
  pose proof (decode_frame sync length t rest self Hb Hrest) as Hd.
  subst p. rewrite slice_rest.
  split; [|split; [|split]].
  - intros Hs. rewrite Hd. by rewrite decide_True.
  - intros Hs Hlong. rewrite Hd. rewrite decide_False by naive_solver.
    by rewrite decide_True.
  - intros Hs H9 Hshort. rewrite Hd. rewrite decide_False by naive_solver.
    rewrite decide_False by lia. by rewrite decide_True by lia.
  - intros Hs H9 Hfull c Hc. rewrite lookup_rest in Hc by done.
    rewrite Hd. rewrite decide_False by naive_solver.
    rewrite decide_False by lia. rewrite decide_False by lia.
    cbv zeta. rewrite Hc. subst sync.
    split; intros Hx.
    + by rewrite decide_True by naive_solver.
    + by rewrite decide_False by naive_solver.
Qed.

Lemma decode_validation_order_witness :
  Forall Py.is_byte [0xA4; 0x01; 0x4B; 0x03; 0xED]
  ∧ Message.decode (H:=ant_constants) [0xA4; 0x01; 0x4B; 0x03; 0xED]
      (mkMessage CMessage 0 [])
    = (mkMessage CMessage 0x4B [0x03], Ok 5).
Proof.
  assert (Forall Py.is_byte [0xA4; 0x01; 0x4B; 0x03; 0xED]) as Hb by bytes.
  split; [exact Hb|].
  destruct (decode_validation_order (H:=ant_constants)
              [0xA4; 0x01; 0x4B; 0x03; 0xED] (mkMessage CMessage 0 []) Hb)
    as [_ Hrest].
  destruct (Hrest 0xA4 0x01 0x4B) as (_ & _ & _ & Hok);
    [by vm_compute|reflexivity..|].
  destruct (Hok eq_refl) with (c := 0xED) as [_ Hdec];
    [by vm_compute..|reflexivity|].
  exact (Hdec eq_refl).
Defined.

(** C10. [decode] is not atomic: when a buffer passes the length, sync
    and size checks and fails the checksum comparison, the call raises
    Corrupted and leaves the message with the buffer's type byte and
    payload slice, whatever it held before. *)
Theorem decode_checksum_failure_keeps_writes `{Constants}
    (raw : list Z) (self : Message) (length t c : Z) :
  Forall Py.is_byte raw →
  5 ≤ Py.len raw →
  raw !! 0%nat = Some MESSAGE_TX_SYNC →
  raw !! 1%nat = Some length →
  raw !! 2%nat = Some t →
  length ≤ 9 →
  length + 4 ≤ Py.len raw →
  raw !! Z.to_nat (length + 3) = Some c →
  c ≠ xor_all (MESSAGE_TX_SYNC :: length :: t
                 :: Py.slice raw 3 (length + 3)) →
  ∃ self',
    Message.decode raw self = (self', Raise decode_bad_checksum)
    ∧ type_ self' = t
    ∧ payload self' = Py.slice raw 3 (length + 3)
    ∧ fails_with Message.CORRUPTED (Message.decode raw self).
Proof.
  intros Hb Hl H0 H1 H2 H9 Hfull Hc Hx.
  destruct (header_split raw _ length t Hl H0 H1 H2)
    as (rest & -> & Hrest & Hlen).
  assert (0 ≤ length) as Hl0.
  { rewrite !Forall_cons in Hb. unfold Py.is_byte in Hb. lia. }
  rewrite slice_rest in *. rewrite lookup_rest in Hc by done.
  rewrite (decode_frame _ length t rest self Hb Hrest).
  rewrite decide_False by naive_solver.
  rewrite decide_False by lia. rewrite decide_False by lia.
  cbv zeta. rewrite Hc. rewrite decide_True by naive_solver.
  eexists. split; [done|]. split; [done|]. split; [done|].
  by eexists.
Qed.

Lemma decode_checksum_failure_keeps_writes_witness :
  ∃ self',
    Message.decode (H:=ant_constants) [0xA4; 0x01; 0x4B; 0x03; 0x00]
      (mkMessage CMessage 0x01 [0x07; 0x08])
    = (self', Raise decode_bad_checksum)
    ∧ type_ self' = 0x4B
    ∧ payload self' = [0x03]
    ∧ fails_with Message.CORRUPTED
        (Message.decode (H:=ant_constants) [0xA4; 0x01; 0x4B; 0x03; 0x00]
           (mkMessage CMessage 0x01 [0x07; 0x08])).
Proof.
  apply (decode_checksum_failure_keeps_writes (H:=ant_constants)
           [0xA4; 0x01; 0x4B; 0x03; 0x00] (mkMessage CMessage 0x01 [0x07; 0x08])
           0x01 0x4B 0x00);
    try done; bytes.
Defined.

(** ** Construction, and the round trip through [encode] and [decode] *)

Lemma init_ok t p :
  0 ≤ t ≤ 255 → Py.len p ≤ 9 →
  new CMessage (Message.__init__ t (Some p)) = Ok (mkMessage CMessage t p).
Proof.
  intros Ht Hp. assert (Py.is_byte t) by (unfold Py.is_byte; lia).
  unfold Message.__init__. run.
  rewrite setType_byte by done. run.
  by rewrite setPayload_short by done.
Qed.

Lemma init_too_long t p :
  0 ≤ t ≤ 255 → 9 < Py.len p →
  new CMessage (Message.__init__ t (Some p))
  = Raise (MessageError "Could not set payload (payload too long)."
                        (Some Message.MALFORMED)).
Proof.
  intros Ht Hp. assert (Py.is_byte t) by (unfold Py.is_byte; lia).
  unfold Message.__init__. run.
  rewrite setType_byte by done. run.
  unfold Message.setPayload. by rewrite decide_True by lia.
Qed.

Lemma decode_encoded `{Constants} t p self :
  Py.is_byte MESSAGE_TX_SYNC → 0 ≤ t ≤ 255 →
  1 ≤ Py.len p ≤ 9 → Forall Py.is_byte p →
  Message.decode
    ([MESSAGE_TX_SYNC; Py.len p; t] ++ p
       ++ [xor_all (MESSAGE_TX_SYNC :: Py.len p :: t :: p)]) self
  = (mkMessage (cls self) t p, Ok (Py.len p + 4)).
Proof.
  intros Hs Ht Hl Hp.
  assert (Py.is_byte t) as Ht' by (unfold Py.is_byte; lia).
  assert (Py.is_byte (Py.len p)) as Hl' by (apply len_byte; lia).
  assert (Z.to_nat (Py.len p) = length p) as Hn by (unfold Py.len; lia).
  cbn [app]. rewrite decode_frame.
  - rewrite decide_False by (intros Hne; by apply Hne). rewrite decide_False by lia.
    rewrite decide_False by (rewrite len_app; unfold Py.len; simpl; lia).
    cbv zeta. rewrite Hn, lookup_app_r by lia.
    rewrite Nat.sub_diag, take_app_length. cbn [lookup list_lookup].
    by rewrite decide_False by (intros Hne; by apply Hne).
  - repeat (apply List.Forall_cons; [done|]).
    apply Forall_app_2; [done|]. apply List.Forall_cons; [|done].
    apply xor_all_byte. bytes.
  - rewrite len_app. unfold Py.len in *. simpl. lia.
Qed.

(** C1, as amended. For a type in 0..255 and a payload of 1 to 9 bytes
    the round trip holds: the message encodes to a frame that decodes,
    into any message, to the same type and payload with [len(p) + 4]
    bytes consumed. *)
Theorem roundtrip_nonempty `{Constants} (t : Z) (p : list Z) :
  Py.is_byte MESSAGE_TX_SYNC →
  0 ≤ t ≤ 255 →
  1 ≤ Py.len p ≤ 9 →
  Forall Py.is_byte p →
  roundtrip t p.
Proof.
  intros Hs Ht Hl Hp.
  assert (Py.is_byte t) as Ht' by (unfold Py.is_byte; lia).
  eexists _, _. split; [apply init_ok; [done|lia]|].
  split; [apply encode_eq; [done|done|cbn [payload]; lia|done]|].
  intros self. cbn [payload type_]. by apply decode_encoded.
Qed.

Lemma roundtrip_nonempty_witness :
  Forall Py.is_byte [0x03] ∧ roundtrip (H:=ant_constants) 0x4B [0x03].
Proof.
  assert (Forall Py.is_byte [0x03]) as Hb by bytes.
  split; [exact Hb|].
  apply (roundtrip_nonempty (H:=ant_constants) 0x4B [0x03]);
    [by vm_compute|by vm_compute|by vm_compute|exact Hb].
Defined.

(** The empty payload encodes to a frame of 4 bytes, one short of what
    [decode] asks for before it looks at anything else. *)
Lemma encode_empty_decodes_incomplete `{Constants} (t : Z) c self :
  Py.is_byte MESSAGE_TX_SYNC →
  0 ≤ t ≤ 255 →
  ∃ raw,
    Message.encode (mkMessage c t []) = (mkMessage c t [], Ok raw)
    ∧ Py.len raw = 4
    ∧ Message.decode raw self = (self, Raise decode_incomplete).
Proof.
  intros Hs Ht.
  assert (Py.is_byte t) as Ht' by (unfold Py.is_byte; lia).
  eexists. split; [by apply encode_eq|]. split; [done|].
  apply decode_short; [|done].
  cbn [app payload type_]. bytes.
  apply List.Forall_cons; [|done]. apply xor_all_byte. bytes.
Qed.

(** The round trip fails on the empty payload, whatever the constants
    are: a frame of 4 bytes never decodes. *)
Lemma roundtrip_empty `{Constants} (t : Z) : ¬ roundtrip t [].
Proof.
  intros (m & raw & Hnew & Henc & Hdec).
  unfold Message.__init__ in Hnew. revert Hnew. run.
  unfold Message.setType. case_decide; [done|]. run.
  rewrite setPayload_short by done. run. intros [= <-].
  revert Henc. unfold Message.encode, Py.bytearray, Py.concat, Py.append. run.
  case_decide as Hb; [|done]. rewrite decide_True by done.
  rewrite getChecksum_eq.
  case_decide as Hc; [|done]. intros [= <-].
  specialize (Hdec (mkMessage CMessage 0 [])).
  rewrite decode_short in Hdec; [done| |done].
  apply (Forall_app_2 _ [_; _; _] [_]); [done|].
  apply List.Forall_cons; [exact Hc|done].
Qed.

(** C1, the counterexample. The message of type 0 with the empty payload
    encodes to the frame [A4 00 00 A4]; decoding it does not give back
    the message. *)
Lemma roundtrip_empty_payload_fails : ¬ roundtrip (H:=ant_constants) 0 [].
Proof. apply roundtrip_empty. Qed.

(** C9. With a type in range, a payload of 10 bytes is refused with a
    Malformed error, by the constructor and by [setPayload] alike, which
    leaves the message as it was; a payload of exactly 9 bytes is accepted
    and the message encodes to a frame of 13 bytes. *)
Theorem payload_length_bound `{Constants} (t : Z) (p : list Z) :
  Py.is_byte MESSAGE_TX_SYNC →
  0 ≤ t ≤ 255 →
  Forall Py.is_byte p →
  (Py.len p = 10 →
     new CMessage (Message.__init__ t (Some p))
     = Raise (MessageError "Could not set payload (payload too long)."
                           (Some Message.MALFORMED))
     ∧ ∀ self, Message.setPayload p self
               = (self, Raise (MessageError
                                 "Could not set payload (payload too long)."
                                 (Some Message.MALFORMED))))
  ∧ (Py.len p = 9 →
     ∃ raw,
       new CMessage (Message.__init__ t (Some p))
       = Ok (mkMessage CMessage t p)
       ∧ Message.encode (mkMessage CMessage t p)
         = (mkMessage CMessage t p, Ok raw)
       ∧ Py.len raw = 13).
Proof.
  intros Hs Ht Hp. split.
  - intros Hl. split.
    + apply init_too_long; [done|lia].
    + intros self. unfold Message.setPayload.
      by rewrite decide_True by lia.
  - intros Hl. eexists. split; [apply init_ok; [done|lia]|].
    split; [apply encode_eq; cbn [payload type_]; [done|done|lia|done]|].
    cbn [payload type_]. rewrite (len_app [_; _; _]), len_app.
    unfold Py.len in *. simpl. lia.
Qed.

Lemma payload_length_bound_witness :
  Forall Py.is_byte (replicate 9 0xFF)
  ∧ ∃ raw,
      new CMessage (Message.__init__ 0x46 (Some (replicate 9 0xFF)))
      = Ok (mkMessage CMessage 0x46 (replicate 9 0xFF))
      ∧ Message.encode (H:=ant_constants)
          (mkMessage CMessage 0x46 (replicate 9 0xFF))
        = (mkMessage CMessage 0x46 (replicate 9 0xFF), Ok raw)
      ∧ Py.len raw = 13.
Proof.
  assert (Forall Py.is_byte (replicate 9 0xFF)) as Hb
    by by apply Forall_replicate.
  split; [exact Hb|].
  destruct (payload_length_bound (H:=ant_constants) 0x46 (replicate 9 0xFF))
    as [_ H9]; [by vm_compute|by vm_compute|exact Hb|].
  apply H9. reflexivity.
Defined.

(** ** Single-bit corruption of an encoded frame *)

Lemma lxor_flip_ne x d : d ≠ 0 → Z.lxor x d ≠ x.
Proof.
  intros Hd Heq. apply Hd.
  assert (Z.lxor x (Z.lxor x d) = d) as Hxd
    by (by rewrite <- Z.lxor_assoc, Z.lxor_nilpotent, Z.lxor_0_l).
  by rewrite Heq, Z.lxor_nilpotent in Hxd.
Qed.

Lemma pow2_byte k : 0 ≤ k < 8 → Py.is_byte (2 ^ k) ∧ 2 ^ k ≠ 0.
Proof.
  intros Hk. unfold Py.is_byte.
  pose proof (Z.pow_lt_mono_r 2 k 8). pose proof (Z.pow_pos_nonneg 2 k).
  change (2 ^ 8) with 256 in *. lia.
Qed.

Lemma xor_all_alter d j p :
  (j < length p)%nat →
  xor_all (alter (λ b, Z.lxor b d) j p) = Z.lxor (xor_all p) d.
Proof.
  revert j. induction p as [|b p IH]; intros [|j] Hj; simpl in Hj; try lia.
  - simpl. xor_bits.
  - change (xor_all (alter (λ b, Z.lxor b d) (S j) (b :: p)))
      with (Z.lxor b (xor_all (alter (λ b, Z.lxor b d) j p))).
    rewrite IH by lia. simpl. xor_bits.
Qed.

Lemma flip_bytes raw i k :
  0 ≤ k < 8 → Forall Py.is_byte raw → Forall Py.is_byte (flip_bit raw i k).
Proof.
  intros Hk Hb. apply Forall_alter; [done|].
  intros b _ Hbyte. apply lxor_byte; [done|]. by apply pow2_byte.
Qed.

(** A frame with the right sync byte and length whose last byte is not
    the checksum of what precedes it. *)
Lemma decode_bad_checksum_frame `{Constants} t p c self :
  Py.is_byte t → 1 ≤ Py.len p ≤ 9 → Forall Py.is_byte p → Py.is_byte c →
  xor_all (MESSAGE_TX_SYNC :: Py.len p :: t :: p) ≠ c →
  Py.is_byte MESSAGE_TX_SYNC →
  Message.decode ([MESSAGE_TX_SYNC; Py.len p; t] ++ p ++ [c]) self
  = (mkMessage (cls self) t p, Raise decode_bad_checksum).
Proof.
  intros Ht Hl Hp Hc Hx Hs.
  assert (Py.is_byte (Py.len p)) as Hl' by (apply len_byte; lia).
  assert (Z.to_nat (Py.len p) = length p) as Hn by (unfold Py.len; lia).
  cbn [app]. rewrite decode_frame.
  - rewrite decide_False by (intros Hne; by apply Hne).
    rewrite decide_False by lia.
    rewrite decide_False by (rewrite len_app; unfold Py.len; simpl; lia).
    cbv zeta. rewrite Hn, lookup_app_r by lia.
    rewrite Nat.sub_diag, take_app_length. cbn [lookup list_lookup].
    by rewrite decide_True by done.
  - repeat (apply List.Forall_cons; [done|]).
    apply Forall_app_2; [done|]. by apply List.Forall_cons.
  - rewrite len_app. unfold Py.len in *. simpl. lia.
Qed.

(** The encoded frame of the message built from [t] and [p]. *)
Lemma frame_of `{Constants} t p :
  Py.is_byte MESSAGE_TX_SYNC → 0 ≤ t ≤ 255 → Py.len p ≤ 9 →
  Forall Py.is_byte p →
  let c := xor_all (MESSAGE_TX_SYNC :: Py.len p :: t :: p) in
  new CMessage (Message.__init__ t (Some p)) = Ok (mkMessage CMessage t p)
  ∧ Message.encode (mkMessage CMessage t p)
    = (mkMessage CMessage t p,
       Ok (MESSAGE_TX_SYNC :: Py.len p :: t :: p ++ [c]))
  ∧ Py.is_byte c
  ∧ Forall Py.is_byte (MESSAGE_TX_SYNC :: Py.len p :: t :: p ++ [c]).
Proof.
  intros Hs Ht Hl Hp c.
  assert (Py.is_byte t) as Ht' by (unfold Py.is_byte; lia).
  assert (Py.is_byte (Py.len p)) as Hl' by (apply len_byte; lia).
  assert (Py.is_byte c) as Hc by (apply xor_all_byte; bytes).
  split; [by apply init_ok|]. split; [by apply encode_eq|].
  split; [done|]. repeat (apply List.Forall_cons; [done|]).
  apply Forall_app_2; [done|]. by apply List.Forall_cons.
Qed.

Lemma flip_sync_corrupted `{Constants} t p k :
  Py.is_byte MESSAGE_TX_SYNC → 0 ≤ t ≤ 255 → 1 ≤ Py.len p ≤ 9 →
  Forall Py.is_byte p → 0 ≤ k < 8 →
  after_flip t p 0 k (λ out, out.2 = Raise decode_bad_sync).
Proof.
  intros Hs Ht Hl Hp Hk.
  destruct (frame_of t p) as (Hnew & Henc & Hc & Hraw); [done|done|lia|done|].
  eexists _, _. split; [exact Hnew|]. split; [exact Henc|]. intros self.
  pose proof (flip_bytes _ 0 k Hk Hraw) as Hb.
  change (flip_bit (?a :: ?l) 0 k) with (Z.lxor a (2 ^ k) :: l) in *.
  rewrite decode_frame; [|done|rewrite len_app; unfold Py.len in *; simpl; lia].
  rewrite decide_True; [done|]. apply lxor_flip_ne. by apply pow2_byte.
Qed.

Lemma flip_length_outcome `{Constants} t p k :
  Py.is_byte MESSAGE_TX_SYNC → 0 ≤ t ≤ 255 → 1 ≤ Py.len p ≤ 9 →
  Forall Py.is_byte p → 0 ≤ k < 8 →
  let length' := Z.lxor (Py.len p) (2 ^ k) in
  (9 < length' → after_flip t p 1 k (λ out, out.2 = Raise decode_too_long))
  ∧ (Py.len p < length' ≤ 9 →
     after_flip t p 1 k (λ out, out.2 = Raise decode_incomplete)).
Proof.
  intros Hs Ht Hl Hp Hk length'.
  destruct (frame_of t p) as (Hnew & Henc & Hc & Hraw); [done|done|lia|done|].
  pose proof (flip_bytes _ 1 k Hk Hraw) as Hb.
  change (flip_bit (?a :: ?b :: ?l) 1 k) with (a :: Z.lxor b (2 ^ k) :: l) in *.
  fold length' in Hb.
  split; intros Hlen; (eexists _, _; split; [exact Hnew|]; split; [exact Henc|]);
    intros self;
    change (flip_bit (?a :: ?b :: ?l) 1 k) with (a :: Z.lxor b (2 ^ k) :: l);
    fold length';
    (rewrite decode_frame;
       [|done|rewrite len_app; unfold Py.len in *; simpl; lia]);
    rewrite decide_False by (intros Hne; by apply Hne).
  - by rewrite decide_True by lia.
  - rewrite decide_False by lia.
    by rewrite decide_True by (rewrite len_app; unfold Py.len in *; simpl; lia).
Qed.

Lemma flip_checked_corrupted `{Constants} t p (i : nat) k :
  Py.is_byte MESSAGE_TX_SYNC → 0 ≤ t ≤ 255 → 1 ≤ Py.len p ≤ 9 →
  Forall Py.is_byte p → 0 ≤ k < 8 →
  (2 ≤ i < length p + 4)%nat →
  after_flip t p i k (λ out, out.2 = Raise decode_bad_checksum).
Proof.
  intros Hs Ht Hl Hp Hk Hi.
  destruct (frame_of t p) as (Hnew & Henc & Hc & Hraw); [done|done|lia|done|].
  destruct (pow2_byte k Hk) as [Hd Hd0].
  assert (Py.is_byte t) as Ht' by (unfold Py.is_byte; lia).
  set (c := xor_all (MESSAGE_TX_SYNC :: Py.len p :: t :: p)) in *.
  eexists _, _. split; [exact Hnew|]. split; [exact Henc|]. intros self.
  destruct i as [|[|[|j]]]; try lia.
  - (* the type byte *)
    change (flip_bit (?a :: ?b :: ?x :: ?l) 2 k)
      with ([a; b; Z.lxor x (2 ^ k)] ++ l).
    rewrite decode_bad_checksum_frame; try done.
    + by apply lxor_byte.
    + replace (xor_all (MESSAGE_TX_SYNC :: Py.len p :: Z.lxor t (2 ^ k) :: p))
        with (Z.lxor c (2 ^ k)) by (subst c; simpl; xor_bits).
      by apply lxor_flip_ne.
  - change (flip_bit (?a :: ?b :: ?x :: ?l) (S (S (S j))) k)
      with ([a; b; x] ++ flip_bit l j k).
    destruct (decide (j < length p)%nat) as [Hj|Hj].
    + (* a payload byte *)
      unfold flip_bit. rewrite alter_app_l by done.
      pose proof (length_alter (λ b, Z.lxor b (2 ^ k)) p j) as Hlen.
      replace (Py.len p) with (Py.len (alter (λ b, Z.lxor b (2 ^ k)) j p))
        by (unfold Py.len; by rewrite Hlen).
      rewrite decode_bad_checksum_frame; try done.
      * unfold Py.len in *. rewrite Hlen. lia.
      * by apply (flip_bytes p j k).
      * cbn [xor_all foldr]. fold (xor_all (alter (λ b, Z.lxor b (2 ^ k)) j p)).
        rewrite xor_all_alter by done.
        replace (Py.len (alter (λ b, Z.lxor b (2 ^ k)) j p)) with (Py.len p)
          by (unfold Py.len; by rewrite Hlen).
        replace (Z.lxor MESSAGE_TX_SYNC
                   (Z.lxor (Py.len p)
                      (Z.lxor t (Z.lxor (xor_all p) (2 ^ k)))))
          with (Z.lxor c (2 ^ k)) by (subst c; simpl; xor_bits).
        by apply lxor_flip_ne.
    + (* the checksum byte *)
      assert (j = length p + 0)%nat as -> by lia.
      unfold flip_bit. rewrite alter_app_r. cbn [alter list_alter].
      rewrite decode_bad_checksum_frame; try done.
      * by apply lxor_byte.
      * fold c. intros Heq. by apply (lxor_flip_ne c (2 ^ k)).
Qed.

Lemma after_flip_mono `{Constants} t p i k (P Q : Message * result Z → Prop) :
  (∀ out, P out → Q out) → after_flip t p i k P → after_flip t p i k Q.
Proof.
  intros HPQ (m & raw & Hnew & Henc & Hdec).
  exists m, raw. split; [done|]. split; [done|]. intros self. apply HPQ, Hdec.
Qed.

(** A frame without payload has 4 bytes, flipped or not. *)
Lemma flip_empty_incomplete `{Constants} t i k :
  Py.is_byte MESSAGE_TX_SYNC → 0 ≤ t ≤ 255 → 0 ≤ k < 8 →
  after_flip t [] i k (λ out, out.2 = Raise decode_incomplete).
Proof.
  intros Hs Ht Hk.
  destruct (frame_of t []) as (Hnew & Henc & Hc & Hraw); [done..|].
  eexists _, _. split; [exact Hnew|]. split; [exact Henc|]. intros self.
  rewrite decode_short; [done|by apply flip_bytes|].
  unfold flip_bit, Py.len. by rewrite length_alter.
Qed.

(** A flip that lowers the declared length makes [decode] read a shorter
    payload and take the payload byte behind it for the checksum. *)
Lemma flip_length_lowered `{Constants} t p k :
  Py.is_byte MESSAGE_TX_SYNC → 0 ≤ t ≤ 255 → 1 ≤ Py.len p ≤ 9 →
  Forall Py.is_byte p → 0 ≤ k < 8 →
  let length' := Z.lxor (Py.len p) (2 ^ k) in
  length' < Py.len p →
  ∃ b, p !! Z.to_nat length' = Some b
    ∧ after_flip t p 1 k
        (λ out,
           type_ out.1 = t
           ∧ payload out.1 = take (Z.to_nat length') p
           ∧ out.2
             = if decide (xor_all (MESSAGE_TX_SYNC :: length' :: t
                                     :: take (Z.to_nat length') p) ≠ b)
               then Raise decode_bad_checksum
               else Ok (length' + 4)).
Proof.
  intros Hs Ht Hl Hp Hk length' Hlow.
  destruct (frame_of t p) as (Hnew & Henc & Hc & Hraw); [done|done|lia|done|].
  pose proof (flip_bytes _ 1 k Hk Hraw) as Hb.
  change (flip_bit (?a :: ?b :: ?l) 1 k) with (a :: Z.lxor b (2 ^ k) :: l) in *.
  fold length' in Hb.
  assert (0 ≤ length') as Hl0.
  { rewrite !Forall_cons in Hb. unfold Py.is_byte in Hb. lia. }
  assert (Z.to_nat length' < length p)%nat as Hlt
    by (unfold Py.len in *; lia).
  destruct (lookup_lt_is_Some_2 p (Z.to_nat length') Hlt) as [b Hlook].
  exists b. split; [done|].
  eexists _, _. split; [exact Hnew|]. split; [exact Henc|]. intros self.
  change (flip_bit (?a :: ?b :: ?l) 1 k) with (a :: Z.lxor b (2 ^ k) :: l).
  fold length'.
  rewrite decode_frame;
    [|done|rewrite len_app; unfold Py.len in *; simpl; lia].
  rewrite decide_False by (intros Hne; by apply Hne).
  rewrite decide_False by lia.
  rewrite decide_False by (rewrite len_app; unfold Py.len in *; simpl; lia).
  cbv zeta. rewrite lookup_app_l by done. rewrite Hlook.
  rewrite take_app_le by lia.
  by case_decide.
Qed.

(** The frame [A4 01 4B EF 01] of the message of type [4B] with payload
    [EF]: with bit 0 of its length byte flipped it reads [A4 00 4B EF 01]
    and [decode] accepts it, as a message without payload of 4 bytes. *)
Lemma flip_length_bit_accepted :
  Message.encode (H:=ant_constants) (mkMessage CMessage 0x4B [0xEF])
  = (mkMessage CMessage 0x4B [0xEF], Ok [0xA4; 0x01; 0x4B; 0xEF; 0x01])
  ∧ Message.decode (H:=ant_constants)
      (flip_bit [0xA4; 0x01; 0x4B; 0xEF; 0x01] 1 0) (mkMessage CMessage 0 [])
    = (mkMessage CMessage 0x4B [], Ok 4).
Proof. split; reflexivity. Qed.

(** C8, as amended. In the frame of a message with 1 to 9 payload bytes,
    a flipped bit in the sync byte, the type byte, a payload byte or the
    checksum byte makes [decode] fail Corrupted.  A flipped bit in the
    length byte is caught by whichever test of [decode] the new length
    meets first: Malformed when it exceeds 9; Incomplete when it exceeds
    the true length without exceeding 9; and when it is below the true
    length, [decode] reads the shorter payload and compares its checksum
    with the payload byte that follows it, failing Corrupted when they
    differ and succeeding, with the shorter payload and the new length
    plus 4 consumed, when they agree.  The frame of a message without
    payload has 4 bytes, so [decode] fails Incomplete wherever the bit is
    flipped. *)
Theorem single_bit_flip `{Constants} (t : Z) (p : list Z) (i : nat) (k : Z) :
  Py.is_byte MESSAGE_TX_SYNC →
  0 ≤ t ≤ 255 →
  Py.len p ≤ 9 →
  Forall Py.is_byte p →
  0 ≤ k < 8 →
  (i < length p + 4)%nat →
  let length' := Z.lxor (Py.len p) (2 ^ k) in
  (1 ≤ Py.len p → i ≠ 1%nat → flip_detected t p i k)
  ∧ (1 ≤ Py.len p → i = 1%nat → 9 < length' →
     after_flip t p i k (fails_with Message.MALFORMED))
  ∧ (1 ≤ Py.len p → i = 1%nat → Py.len p < length' ≤ 9 →
     after_flip t p i k (fails_with Message.INCOMPLETE))
  ∧ (1 ≤ Py.len p → i = 1%nat → length' < Py.len p →
     ∃ b, p !! Z.to_nat length' = Some b
       ∧ (b ≠ xor_all (MESSAGE_TX_SYNC :: length' :: t
                         :: take (Z.to_nat length') p) →
          flip_detected t p i k)
       ∧ (b = xor_all (MESSAGE_TX_SYNC :: length' :: t
                         :: take (Z.to_nat length') p) →
          after_flip t p i k
            (λ out, out.2 = Ok (length' + 4)
                    ∧ type_ out.1 = t
                    ∧ payload out.1 = take (Z.to_nat length') p)))
  ∧ length' ≠ Py.len p
  ∧ (Py.len p = 0 → after_flip t p i k (fails_with Message.INCOMPLETE)).
Proof.
  intros Hs Ht Hl Hp Hk Hi length'.
  split; [|split; [|split; [|split; [|split]]]].
  - intros Hne Hi1. destruct (decide (i = 0%nat)) as [->|Hi0].
    + eapply after_flip_mono; [|by apply flip_sync_corrupted].
      intros out Hout. eexists. exact Hout.
    + eapply after_flip_mono; [|apply flip_checked_corrupted; try done; lia].
      intros out Hout. eexists. exact Hout.
  - intros Hne -> Hlen.
    destruct (flip_length_outcome t p k) as [Hlong _]; [done|done|lia|done..|].
    eapply after_flip_mono; [|exact (Hlong Hlen)].
    intros out Hout. eexists. exact Hout.
  - intros Hne -> Hlen.
    destruct (flip_length_outcome t p k) as [_ Hgrow]; [done|done|lia|done..|].
    eapply after_flip_mono; [|exact (Hgrow Hlen)].
    intros out Hout. eexists. exact Hout.
  - intros Hne -> Hlow.
    destruct (flip_length_lowered t p k) as (b & Hb & Hflip);
      [done|done|lia|done..|].
    exists b. split; [done|]. split; intros Hx.
    + eapply after_flip_mono; [|exact Hflip].
      intros out (_ & _ & Hout). rewrite decide_True in Hout by done.
      eexists. exact Hout.
    + eapply after_flip_mono; [|exact Hflip].
      intros out (Hty & Hpl & Hout).
      rewrite decide_False in Hout by (intros Hne'; by apply Hne').
      done.
  - apply lxor_flip_ne. by apply pow2_byte.
  - intros Hz. destruct p; [|unfold Py.len in Hz; simpl in Hz; lia].
    eapply after_flip_mono; [|by apply flip_empty_incomplete].
    intros out Hout. eexists. exact Hout.
Qed.

Lemma single_bit_flip_witness :
  Forall Py.is_byte [0x03]
  ∧ flip_detected (H:=ant_constants) 0x4B [0x03] 4 0.
Proof.
  assert (Forall Py.is_byte [0x03]) as Hb by bytes.
  split; [exact Hb|].
  destruct (single_bit_flip (H:=ant_constants) 0x4B [0x03] 4 0)
    as [Hflip _];
    [by vm_compute|by vm_compute|by vm_compute|exact Hb|by vm_compute
    |simpl; lia|].
  apply Hflip; [by vm_compute|discriminate].
Defined.

(** C8, the counterexample. The message of type 0 with payload [00] has
    the frame [A4 01 00 00 A5]; with bit 7 of the length byte flipped it
    reads [A4 81 00 00 A5], and [decode] fails Malformed, not Corrupted. *)
Lemma flip_length_bit_not_corrupted :
  ¬ flip_detected (H:=ant_constants) 0 [0] 1 7.
Proof.
  intros (m & raw & Hnew & Henc & Hdec).
  vm_compute in Hnew. injection Hnew as <-.
  vm_compute in Henc. injection Henc as <-.
  destruct (Hdec (mkMessage CMessage 0 [])) as [msg Hmsg].
  vm_compute in Hmsg. discriminate Hmsg.
Qed.

(** ** The registry and [getHandler] *)

Lemma dict_display_lookup {V} (entries : list (Z * V)) k v :
  dict_display entries !! k = Some v → (k, v) ∈ entries.
Proof.
  unfold dict_display.
  assert (∀ d : gmap Z V,
            foldl (λ d kv, <[kv.1 := kv.2]> d) d entries !! k = Some v →
            (k, v) ∈ entries ∨ d !! k = Some v) as Hgen.
  { induction entries as [|[k' v'] entries IH]; intros d Hd; simpl in *.
    - by right.
    - destruct (IH _ Hd) as [Hin|Hd'].
      + left. apply elem_of_cons. by right.
      + destruct (decide (k' = k)) as [->|Hne].
        * rewrite lookup_insert_eq in Hd'. injection Hd' as ->.
          left. apply elem_of_cons. by left.
        * rewrite lookup_insert_ne in Hd' by done. by right. }
  intros Hd. destruct (Hgen ∅ Hd) as [?|Hempty]; [done|].
  by rewrite lookup_empty in Hempty.
Qed.

Lemma Message_init_eq t p self :
  Py.is_byte t → Py.len p ≤ 9 →
  Message.__init__ t (Some p) self = (mkMessage (cls self) t p, Ok ()).
Proof.
  intros Ht Hp. unfold Message.__init__. run.
  rewrite setType_byte by done. run.
  by rewrite setPayload_short by done.
Qed.

Lemma ChannelMessage_init_eq t p self :
  Py.is_byte t → Py.len p ≤ 8 → Forall Py.is_byte p →
  ChannelMessage.__init__ t p 0x00 self
  = (mkMessage (cls self) t (0 :: p), Ok ()).
Proof.
  intros Ht Hp Hb. unfold ChannelMessage.__init__, Py.concat. run.
  rewrite decide_True by done.
  rewrite Message_init_eq; [|done|].
  - reflexivity.
  - change (Py.zeros 1 ++ p) with (0 :: p). unfold Py.len in *. simpl. lia.
Qed.

(** Every class of the registry can be called without arguments, and the
    instance carries the type code the class is registered under. *)
Lemma instantiate_registered `{K : Constants} k c :
  constants_ok K → (k, c) ∈ TYPE_TABLE_entries →
  ∃ p, instantiate c = Ok (mkMessage c k p).
Proof.
  intros [Hs Hcodes] Hin.
  unfold type_codes in Hcodes. rewrite !Forall_cons in Hcodes.
  destruct Hcodes as
    (?&?&?&?&?&?&?&?&?&?&?&?&?&?&?&?&?&?&?&?&?&?&_).
  unfold TYPE_TABLE_entries in Hin.
  repeat (apply elem_of_cons in Hin as [[= -> ->]|Hin]);
    [..|by apply elem_of_nil in Hin];
    eexists; unfold instantiate, new;
    unfold ChannelUnassignMessage.__init__, ChannelAssignMessage.__init__,
      ChannelIDMessage.__init__, ChannelPeriodMessage.__init__,
      ChannelSearchTimeoutMessage.__init__, ChannelFrequencyMessage.__init__,
      ChannelTXPowerMessage.__init__, NetworkKeyMessage.__init__,
      TXPowerMessage.__init__, SystemResetMessage.__init__,
      ChannelOpenMessage.__init__, ChannelCloseMessage.__init__,
      ChannelRequestMessage.__init__,
      ChannelBroadcastDataMessage.__init__,
      ChannelAcknowledgedDataMessage.__init__,
      ChannelBurstDataMessage.__init__, ChannelEventMessage.__init__,
      ChannelStatusMessage.__init__, VersionMessage.__init__,
      StartupMessage.__init__, CapabilitiesMessage.__init__,
      SerialNumberMessage.__init__;
    try (unfold mbind at 1, method_bind at 1);
    first [ rewrite ChannelMessage_init_eq
              by first [ done | by vm_compute | by apply Forall_replicate ]
          | rewrite Message_init_eq by (done || by vm_compute)
          | idtac ];
    try reflexivity.
  - (* ChannelRequestMessage: the default message id is a constant *)
    unfold ChannelRequestMessage.setMessageID.
    assert (Py.is_byte MESSAGE_CHANNEL_STATUS) as Hstatus by done.
    destruct Hstatus as [? ?]. rewrite decide_False by lia.
    unfold payload_set, Py.setitem. run.
    change (Py.index (0 :: Py.zeros 1) 1) with (Some 1%nat).
    cbv beta iota. rewrite decide_True by done. reflexivity.
  - (* SerialNumberMessage: [Message.__init__] without payload *)
    unfold Message.__init__. run. rewrite setType_byte by done. reflexivity.
Qed.

(** What a successful [decode] leaves in the message. *)
Lemma decode_ok_inv `{Constants} raw self self' n :
  Message.decode raw self = (self', Ok n) →
  Py.is_byte (type_ self') ∧ Py.len (payload self') ≤ 9
  ∧ n = Py.len (payload self') + 4.
Proof.
  intros Hdec.
  destruct (decide (Forall Py.is_byte raw)) as [Hb|Hb];
    [|by rewrite decode_not_bytes in Hdec].
  destruct (decide (Py.len raw < 5)) as [Hl|Hl];
    [by rewrite decode_short in Hdec|].
  destruct raw as [|sync [|length [|t rest]]];
    try (unfold Py.len in Hl; simpl in Hl; lia).
  assert (2 ≤ Py.len rest) as Hrest
    by (unfold Py.len in *; simpl in Hl; lia).
  assert (Py.is_byte length ∧ Py.is_byte t) as [[Hl0 Hl1] Ht]
    by (rewrite !Forall_cons in Hb; tauto).
  rewrite decode_frame in Hdec by done.
  repeat (case_decide; [done|]). cbv zeta in Hdec.
  destruct (rest !! Z.to_nat length); [|done].
  case_decide; [done|]. injection Hdec as <- <-. cbn [type_ payload].
  assert (Py.len (take (Z.to_nat length) rest) = length) as ->
    by (unfold Py.len in *; rewrite length_take; lia).
  split; [done|]. split; [lia|done].
Qed.

(** C7. On a buffer that [decode] accepts, [getHandler] looks the decoded
    type code up in [TYPE_TABLE]: without an entry for it the call fails
    with [KeyError] on that code, the error the source has for an unknown
    type, which is none of the Incomplete, Corrupted and Malformed errors
    of [decode]; with an entry it returns an instance of the registered
    class holding the decoded type code and the decoded payload. *)
Theorem getHandler_dispatch `{K : Constants}
    (raw : list Z) (self self' : Message) (n : Z) :
  constants_ok K →
  Message.decode raw self = (self', Ok n) →
  (TYPE_TABLE !! type_ self' = None →
     getHandler raw self = (self', Raise (KeyError (type_ self')))
     ∧ ∀ category, ¬ fails_with category (getHandler raw self))
  ∧ (∀ c, TYPE_TABLE !! type_ self' = Some c →
       getHandler raw self
       = (self', Ok (mkMessage c (type_ self') (payload self')))).
Proof.
  intros HK Hdec.
  destruct (decode_ok_inv _ _ _ _ Hdec) as (Ht & Hp & _).
  split.
  - intros Hnone. assert (getHandler raw self
                          = (self', Raise (KeyError (type_ self')))) as Heq.
    { unfold getHandler, dict_get. run. by rewrite Hdec, Hnone. }
    split; [done|]. intros category [msg Hmsg]. by rewrite Heq in Hmsg.
  - intros c Hsome.
    destruct (instantiate_registered (type_ self') c HK) as [p0 Hinst].
    { by apply dict_display_lookup. }
    unfold getHandler, dict_get. run. rewrite Hdec, Hsome, Hinst.
    by rewrite setPayload_short by done.
Qed.

Lemma getHandler_dispatch_witness :
  constants_ok ant_constants
  ∧ getHandler (H:=ant_constants) [0xA4; 0x01; 0x4B; 0x03; 0xED]
      (mkMessage CMessage 0 [])
    = (mkMessage CMessage 0x4B [0x03],
       Ok (mkMessage CChannelOpenMessage 0x4B [0x03]))
  ∧ getHandler (H:=ant_constants) [0xA4; 0x01; 0x02; 0x03; 0xA4]
      (mkMessage CMessage 0 [])
    = (mkMessage CMessage 0x02 [0x03], Raise (KeyError 0x02)).
Proof.
  assert (constants_ok ant_constants) as HK
    by (apply (bool_decide_unpack _); by vm_compute).
  split; [exact HK|]. split.
  - destruct (getHandler_dispatch (K:=ant_constants)
                [0xA4; 0x01; 0x4B; 0x03; 0xED] (mkMessage CMessage 0 [])
                (mkMessage CMessage 0x4B [0x03]) 5 HK) as [_ Hsome];
      [by vm_compute|].
    apply (Hsome CChannelOpenMessage). by vm_compute.
  - destruct (getHandler_dispatch (K:=ant_constants)
                [0xA4; 0x01; 0x02; 0x03; 0xA4] (mkMessage CMessage 0 [])
                (mkMessage CMessage 0x02 [0x03]) 5 HK) as [Hnone _];
      [by vm_compute|].
    apply Hnone. by vm_compute.
Defined.

(** ** Field setters *)

Lemma payload_set_ok (i v : Z) (n : nat) self :
  Py.index (payload self) i = Some n → Py.is_byte v →
  payload_set i v self = (with_payload (<[n:=v]> (payload self)) self, Ok ()).
Proof.
  intros Hi Hv. unfold payload_set, Py.setitem. run.
  by rewrite Hi, decide_True by done.
Qed.

Lemma payload_set_bad_value (i v : Z) (n : nat) self :
  Py.index (payload self) i = Some n → ¬ Py.is_byte v →
  payload_set i v self = (self, Raise ValueError).
Proof.
  intros Hi Hv. unfold payload_set, Py.setitem. run.
  by rewrite Hi, decide_False by done.
Qed.

Lemma payload_set_bad_index (i v : Z) self :
  Py.index (payload self) i = None →
  payload_set i v self = (self, Raise IndexError).
Proof.
  intros Hi. unfold payload_set, Py.setitem. run. by rewrite Hi.
Qed.

Lemma index_in_range {A} (l : list A) (i : Z) :
  0 ≤ i < Py.len l → Py.index l i = Some (Z.to_nat i).
Proof. intros Hi. unfold Py.index. by rewrite decide_True by done. Qed.

(** ** The Capabilities message and its optional fifth byte *)

Lemma setAdvOptions2_appends (v : Z) self :
  Py.is_byte v → Py.len (payload self) = 4 →
  CapabilitiesMessage.setAdvOptions2 v self
  = (with_payload (payload self ++ [v]) self, Ok ()).
Proof.
  intros Hv Hl. destruct self as [c t p]. cbn [payload] in *.
  destruct p as [|a [|b [|c' [|d [|e p]]]]];
    try (unfold Py.len in Hl; simpl in Hl; lia).
  unfold CapabilitiesMessage.setAdvOptions2.
  rewrite decide_False by (unfold Py.is_byte in Hv; lia).
  run. rewrite decide_True by done. unfold Py.append.
  rewrite decide_True by done. run.
  unfold Py.setitem. cbn [app].
  change (Py.index [a; b; c'; d; 0] 4) with (Some 4%nat).
  cbv beta iota. by rewrite decide_True by done.
Qed.

Lemma capabilities_init_4 `{Constants} (a b c d : Z) self :
  Py.is_byte MESSAGE_CAPABILITIES →
  Py.is_byte a → Py.is_byte b → Py.is_byte c → Py.is_byte d →
  CapabilitiesMessage.__init__ a b c d None self
  = (mkMessage (cls self) MESSAGE_CAPABILITIES [a; b; c; d], Ok ()).
Proof.
  intros HK Ha Hb Hc Hd.
  unfold CapabilitiesMessage.__init__.
  unfold mbind at 1, method_bind at 1.
  rewrite Message_init_eq by (done || by vm_compute).
  unfold CapabilitiesMessage.setMaxChannels, CapabilitiesMessage.setMaxNetworks,
    CapabilitiesMessage.setStdOptions, CapabilitiesMessage.setAdvOptions.
  unfold Py.is_byte in *.
  rewrite !decide_False by lia.
  unfold mbind at 1, method_bind at 1.
  rewrite (payload_set_ok 0 a 0) by done.
  unfold mbind at 1, method_bind at 1.
  rewrite (payload_set_ok 1 b 1) by done.
  unfold mbind at 1, method_bind at 1.
  rewrite (payload_set_ok 2 c 2) by done.
  unfold mbind at 1, method_bind at 1.
  rewrite (payload_set_ok 3 d 3) by done.
  reflexivity.
Qed.

Lemma capabilities_init_5 `{Constants} (a b c d v : Z) self :
  Py.is_byte MESSAGE_CAPABILITIES →
  Py.is_byte a → Py.is_byte b → Py.is_byte c → Py.is_byte d → Py.is_byte v →
  CapabilitiesMessage.__init__ a b c d (Some v) self
  = (mkMessage (cls self) MESSAGE_CAPABILITIES [a; b; c; d; v], Ok ()).
Proof.
  intros HK Ha Hb Hc Hd Hv.
  pose proof (capabilities_init_4 a b c d self HK Ha Hb Hc Hd) as Hnone.
  unfold CapabilitiesMessage.__init__ in *. revert Hnone. run.
  destruct (Message.__init__ _ _ _) as [s0 [[]|e]]; [|done].
  destruct (CapabilitiesMessage.setMaxChannels _ _) as [s1 [[]|e]]; [|done].
  destruct (CapabilitiesMessage.setMaxNetworks _ _) as [s2 [[]|e]]; [|done].
  destruct (CapabilitiesMessage.setStdOptions _ _) as [s3 [[]|e]]; [|done].
  destruct (CapabilitiesMessage.setAdvOptions _ _) as [s4 [[]|e]]; [|done].
  intros [= ->]. by rewrite setAdvOptions2_appends.
Qed.

(** C6, as amended. The constructor builds a 4-byte payload and then,
    unless it is given [adv_opts2=None], calls [setAdvOptions2], which
    appends a fifth byte to a 4-byte payload: with [None] the payload has
    4 bytes, with a value it has 5, and since the default of [adv_opts2]
    is [0x00] the call without arguments yields 5 bytes as well.  On a
    4-byte payload [getAdvOptions2] returns 0 and changes nothing. *)
Theorem capabilities_payload_shape `{Constants} (a b c d : Z) :
  Py.is_byte MESSAGE_CAPABILITIES →
  Py.is_byte a → Py.is_byte b → Py.is_byte c → Py.is_byte d →
  new CCapabilitiesMessage (CapabilitiesMessage.__init__ a b c d None)
  = Ok (mkMessage CCapabilitiesMessage MESSAGE_CAPABILITIES [a; b; c; d])
  ∧ (∀ v, Py.is_byte v →
       new CCapabilitiesMessage (CapabilitiesMessage.__init__ a b c d (Some v))
       = Ok (mkMessage CCapabilitiesMessage MESSAGE_CAPABILITIES
               [a; b; c; d; v]))
  ∧ instantiate CCapabilitiesMessage
    = Ok (mkMessage CCapabilitiesMessage MESSAGE_CAPABILITIES [0; 0; 0; 0; 0])
  ∧ (∀ self v, Py.is_byte v → Py.len (payload self) = 4 →
       CapabilitiesMessage.setAdvOptions2 v self
       = (with_payload (payload self ++ [v]) self, Ok ()))
  ∧ (∀ self, Py.len (payload self) = 4 →
       CapabilitiesMessage.getAdvOptions2 self = (self, Ok 0)).
Proof.
  intros HK Ha Hb Hc Hd.
  split; [|split; [|split; [|split]]].
  - unfold new. by rewrite capabilities_init_4.
  - intros v Hv. unfold new. by rewrite capabilities_init_5.
  - unfold instantiate, new. by rewrite capabilities_init_5.
  - intros self v. apply setAdvOptions2_appends.
  - intros self Hl. unfold CapabilitiesMessage.getAdvOptions2. run.
    by rewrite decide_False by lia.
Qed.

Lemma capabilities_payload_shape_witness :
  new CCapabilitiesMessage
    (CapabilitiesMessage.__init__ (H:=ant_constants) 8 3 0 0 None)
  = Ok (mkMessage CCapabilitiesMessage 0x54 [8; 3; 0; 0])
  ∧ instantiate (H:=ant_constants) CCapabilitiesMessage
    = Ok (mkMessage CCapabilitiesMessage 0x54 [0; 0; 0; 0; 0]).
Proof.
  destruct (capabilities_payload_shape (H:=ant_constants) 8 3 0 0)
    as (Hnone & _ & Hdefault & _); [by vm_compute..|].
  split; [exact Hnone|exact Hdefault].
Defined.

(** C6, the counterexample. [CapabilitiesMessage()] sets nothing
    explicitly, and its payload has 5 bytes, not 4. *)
Lemma capabilities_unset_has_5_bytes :
  ¬ capabilities_unset_has_4_bytes (H:=ant_constants).
Proof.
  intros (m & Hm & Hlen). vm_compute in Hm. injection Hm as <-.
  by vm_compute in Hlen.
Qed.

(** ** The bounds on type and payload *)

(** The two setters of [Message] keep the bounds, whatever they are given:
    they assign a value within bounds or raise and assign nothing. *)
Lemma setType_keeps_invariant t self :
  invariant self → invariant (Message.setType t self).1.
Proof.
  intros [Ht Hp]. unfold Message.setType. case_decide; [done|].
  split; cbn; [lia|done].
Qed.

Lemma setPayload_keeps_invariant p self :
  invariant self → invariant (Message.setPayload p self).1.
Proof.
  intros [Ht Hp]. unfold Message.setPayload. case_decide; [done|].
  split; cbn; [done|lia].
Qed.

Lemma setKey_eq key self :
  Forall Py.is_byte key →
  NetworkKeyMessage.setKey key self
  = (with_payload (take 1 (payload self) ++ key) self, Ok ()).
Proof.
  intros Hkey. unfold NetworkKeyMessage.setKey, Py.setslice_from, Py.bytearray.
  run. by rewrite decide_True by done.
Qed.

Lemma NetworkKeyMessage_default `{Constants} :
  Py.is_byte MESSAGE_NETWORK_KEY →
  instantiate CNetworkKeyMessage
  = Ok (mkMessage CNetworkKeyMessage MESSAGE_NETWORK_KEY (replicate 9 0)).
Proof.
  intros HK. unfold instantiate, new, NetworkKeyMessage.__init__.
  unfold mbind at 1, method_bind at 1.
  rewrite Message_init_eq by (done || by vm_compute). reflexivity.
Qed.

(** C4. [NetworkKeyMessage.setKey] assigns [payload[1:] = key] without
    looking at the length of [key]: on a freshly built Network-Key message
    (9 payload bytes) a key of 9 bytes or more is accepted without error
    and leaves a payload of more than 9 bytes, so the bound on the payload
    is not kept by every mutation. *)
Theorem setKey_exceeds_payload_bound `{Constants} (key : list Z) :
  Py.is_byte MESSAGE_NETWORK_KEY →
  Forall Py.is_byte key →
  9 ≤ Py.len key →
  ∃ m m',
    instantiate CNetworkKeyMessage = Ok m
    ∧ invariant m
    ∧ NetworkKeyMessage.setKey key m = (m', Ok ())
    ∧ payload m' = 0 :: key
    ∧ ¬ invariant m'.
Proof.
  intros HK Hkey Hlen. eexists _, _.
  split; [by apply NetworkKeyMessage_default|].
  split; [split; cbn; [unfold Py.is_byte in HK; lia|by vm_compute]|].
  split; [by apply setKey_eq|]. split; [done|].
  intros [_ Hp]. cbn in Hp. unfold Py.len in *. simpl in Hp. lia.
Qed.

Lemma setKey_exceeds_payload_bound_witness :
  ∃ m m',
    instantiate (H:=ant_constants) CNetworkKeyMessage = Ok m
    ∧ invariant m
    ∧ NetworkKeyMessage.setKey (replicate 9 0xFF) m = (m', Ok ())
    ∧ payload m' = 0 :: replicate 9 0xFF
    ∧ ¬ invariant m'.
Proof.
  apply (setKey_exceeds_payload_bound (H:=ant_constants) (replicate 9 0xFF));
    [by vm_compute|by apply Forall_replicate|by vm_compute].
Defined.

(** C5. The setters that assign into the payload without a range test of
    their own do not raise the module's error: on a payload long enough
    to hold the field, [ChannelAssignMessage.setChannelType] with a value
    outside 0..255 raises the runtime's [ValueError], and
    [ChannelIDMessage.setDeviceNumber] with a value outside 0..65535 the
    [struct] module's error, where [ChannelStatusMessage.setStatus] raises
    the [MessageError] that names its field.  In all three cases the
    payload is left as it was. *)
Theorem unguarded_setter_out_of_range (v : Z) (self : Message) :
  2 ≤ Py.len (payload self) →
  (¬ 0 ≤ v ≤ 255 →
     ChannelAssignMessage.setChannelType v self = (self, Raise ValueError)
     ∧ ChannelStatusMessage.setStatus v self
       = (self, Raise (MessageError
                         "Could not set channel status (out of range)." None)))
  ∧ (¬ 0 ≤ v ≤ 65535 →
     ChannelIDMessage.setDeviceNumber v self = (self, Raise StructError)).
Proof.
  intros Hl. split.
  - intros Hv. split.
    + unfold ChannelAssignMessage.setChannelType.
      apply (payload_set_bad_value 1 v 1).
      * apply (index_in_range _ 1). lia.
      * unfold Py.is_byte. lia.
    + unfold ChannelStatusMessage.setStatus.
      by rewrite decide_True by lia.
  - intros Hv. unfold ChannelIDMessage.setDeviceNumber, Py.pack_H. run.
    by rewrite decide_False by done.
Qed.

Lemma unguarded_setter_out_of_range_witness :
  ChannelAssignMessage.setChannelType 256
    (mkMessage CChannelAssignMessage 0x42 [0; 0; 0])
  = (mkMessage CChannelAssignMessage 0x42 [0; 0; 0], Raise ValueError)
  ∧ ChannelStatusMessage.setStatus 256
      (mkMessage CChannelAssignMessage 0x42 [0; 0; 0])
    = (mkMessage CChannelAssignMessage 0x42 [0; 0; 0],
       Raise (MessageError "Could not set channel status (out of range)."
                           None)).
Proof.
  destruct (unguarded_setter_out_of_range 256
              (mkMessage CChannelAssignMessage 0x42 [0; 0; 0]))
    as [Hbyte _]; [by vm_compute|].
  apply Hbyte. lia.
Defined.

(** * Further properties of the codec *)

(** ** Frames in a stream *)

Lemma xor_all_app l k : xor_all (l ++ k) = Z.lxor (xor_all l) (xor_all k).
Proof.
  induction l as [|a l IH]; simpl; [done|]. by rewrite IH, Z.lxor_assoc.
Qed.

(** What a successful [encode] returned. *)
Lemma encode_ok_inv `{Constants} self self' raw :
  Message.encode self = (self', Ok raw) →
  self' = self
  ∧ raw = [MESSAGE_TX_SYNC; Py.len (payload self); type_ self]
          ++ payload self
          ++ [xor_all (MESSAGE_TX_SYNC :: Py.len (payload self)
                         :: type_ self :: payload self)].
Proof.
  unfold Message.encode, Py.bytearray, Py.concat, Py.append. run.
  case_decide; [|done]. case_decide; [|done]. rewrite getChecksum_eq.
  case_decide; [|done]. intros [= <- <-]. split; [done|]. by cbn [app].
Qed.

Lemma decode_encoded_then `{Constants} t p extra self :
  Py.is_byte MESSAGE_TX_SYNC → 0 ≤ t ≤ 255 →
  1 ≤ Py.len p ≤ 9 → Forall Py.is_byte p → Forall Py.is_byte extra →
  Message.decode
    (([MESSAGE_TX_SYNC; Py.len p; t] ++ p
        ++ [xor_all (MESSAGE_TX_SYNC :: Py.len p :: t :: p)]) ++ extra) self
  = (mkMessage (cls self) t p, Ok (Py.len p + 4)).
Proof.
  intros Hs Ht Hl Hp He.
  assert (Py.is_byte t) as Ht' by (unfold Py.is_byte; lia).
  assert (Py.is_byte (Py.len p)) as Hl' by (apply len_byte; lia).
  assert (Z.to_nat (Py.len p) = length p) as Hn by (unfold Py.len; lia).
  rewrite <- !app_assoc. cbn [app]. rewrite decode_frame.
  - rewrite decide_False by (intros Hne; by apply Hne).
    rewrite decide_False by lia.
    rewrite decide_False
      by (rewrite (len_app p); unfold Py.len; simpl; lia).
    cbv zeta. rewrite Hn, lookup_app_r by lia.
    rewrite Nat.sub_diag, take_app_length. cbn [app lookup list_lookup].
    by rewrite decide_False by (intros Hne; by apply Hne).
  - repeat (apply List.Forall_cons; [done|]).
    apply Forall_app_2; [done|]. apply List.Forall_cons; [|done].
    apply xor_all_byte. bytes.
  - rewrite (len_app p). unfold Py.len in *. simpl. lia.
Qed.

(** X1. [decode] reads one frame and ignores what follows it: on the
    frame of a message with 1 to 9 payload bytes followed by any bytes,
    it yields that message and the frame's length, and the buffer past
    that many bytes is what followed the frame. *)
Theorem decode_consumes_one_frame `{Constants}
    (t : Z) (p extra : list Z) (self : Message) :
  Py.is_byte MESSAGE_TX_SYNC →
  0 ≤ t ≤ 255 →
  1 ≤ Py.len p ≤ 9 →
  Forall Py.is_byte p →
  Forall Py.is_byte extra →
  ∃ raw n,
    Message.encode (mkMessage CMessage t p)
    = (mkMessage CMessage t p, Ok raw)
    ∧ Message.decode (raw ++ extra) self = (mkMessage (cls self) t p, Ok n)
    ∧ n = Py.len raw
    ∧ Py.slice_from (raw ++ extra) n = extra.
Proof.
  intros Hs Ht Hl Hp He. eexists _, _.
  split; [apply encode_eq; cbn [payload type_]; [done|done|lia|done]|].
  cbn [payload type_].
  split; [by apply decode_encoded_then|].
  assert (Py.len p + 4
          = Py.len ([MESSAGE_TX_SYNC; Py.len p; t] ++ p
                      ++ [xor_all (MESSAGE_TX_SYNC :: Py.len p :: t :: p)]))
    as Hlen.
  { rewrite (len_app [_; _; _]), len_app. unfold Py.len. simpl. lia. }
  split; [done|]. unfold Py.slice_from. rewrite Hlen. unfold Py.len.
  rewrite Nat2Z.id. by rewrite drop_app_length.
Qed.

Lemma decode_consumes_one_frame_witness :
  ∃ raw n,
    Message.encode (H:=ant_constants) (mkMessage CMessage 0x4B [0x03])
    = (mkMessage CMessage 0x4B [0x03], Ok raw)
    ∧ Message.decode (H:=ant_constants) (raw ++ [0xA4; 0x01])
        (mkMessage CMessage 0 [])
      = (mkMessage CMessage 0x4B [0x03], Ok n)
    ∧ n = Py.len raw
    ∧ Py.slice_from (raw ++ [0xA4; 0x01]) n = [0xA4; 0x01].
Proof.
  apply (decode_consumes_one_frame (H:=ant_constants) 0x4B [0x03]
           [0xA4; 0x01] (mkMessage CMessage 0 []));
    [by vm_compute|by vm_compute|by vm_compute|bytes|bytes].
Defined.

(** A successful [decode], read backwards. *)
Lemma decode_ok_frame `{Constants} raw self self' n :
  Message.decode raw self = (self', Ok n) →
  Py.is_byte MESSAGE_TX_SYNC
  ∧ Py.is_byte (type_ self')
  ∧ Forall Py.is_byte (payload self')
  ∧ n = Py.len (payload self') + 4
  ∧ Py.len (payload self') ≤ 9
  ∧ cls self' = cls self
  ∧ Message.encode self' = (self', Ok (Py.slice raw 0 n)).
Proof.
  intros Hdec.
  destruct (decide (Forall Py.is_byte raw)) as [Hb|Hb];
    [|by rewrite decode_not_bytes in Hdec].
  destruct (decide (Py.len raw < 5)) as [Hl|Hl];
    [by rewrite decode_short in Hdec|].
  destruct raw as [|sync [|length [|t rest]]];
    try (unfold Py.len in Hl; simpl in Hl; lia).
  assert (2 ≤ Py.len rest) as Hrest
    by (unfold Py.len in *; simpl in Hl; lia).
  assert (Py.is_byte sync ∧ Py.is_byte length ∧ Py.is_byte t
          ∧ Forall Py.is_byte rest) as (Hs & [Hl0 Hl1] & Ht & Hr)
    by (rewrite !Forall_cons in Hb; tauto).
  rewrite decode_frame in Hdec by done.
  case_decide as Hsync; [done|]. subst sync.
  case_decide; [done|]. case_decide; [done|]. cbv zeta in Hdec.
  destruct (rest !! Z.to_nat length) as [c|] eqn:Hc; [|done].
  case_decide as Hx; [done|].
  injection Hdec as <- <-. cbn [payload type_ cls].
  assert (Py.len (take (Z.to_nat length) rest) = length) as Hlen
    by (unfold Py.len in *; rewrite length_take; lia).
  rewrite Hlen.
  split; [done|]. split; [done|]. split; [by apply Forall_take|].
  split; [done|]. split; [lia|]. split; [done|].
  rewrite encode_eq; cbn [payload type_];
    [|done|unfold Py.is_byte in Ht; lia|lia|by apply Forall_take].
  rewrite Hlen, Hx. do 2 f_equal. unfold Py.slice.
  replace (Z.to_nat (length + 4 - 0)) with (S (S (S (S (Z.to_nat length)))))
    by lia.
  cbn [drop take app Z.to_nat]. do 3 f_equal.
  by rewrite (take_S_r _ _ c).
Qed.

(** X2. What [decode] accepts is an encoding: when [decode] succeeds with
    [n], the message it leaves encodes to exactly the first [n] bytes of
    the buffer, [n] lies between 4 and 13, and the class of the message
    is untouched. *)
Theorem decode_accepts_only_encodings `{Constants}
    (raw : list Z) (self self' : Message) (n : Z) :
  Message.decode raw self = (self', Ok n) →
  Message.encode self' = (self', Ok (Py.slice raw 0 n))
  ∧ 4 ≤ n ≤ 13
  ∧ cls self' = cls self.
Proof.
  intros Hdec.
  destruct (decode_ok_frame _ _ _ _ Hdec)
    as (_ & _ & _ & -> & Hp & Hcls & Henc).
  split; [done|]. split; [|done]. unfold Py.len in *. lia.
Qed.

Lemma decode_accepts_only_encodings_witness :
  Message.encode (H:=ant_constants) (mkMessage CMessage 0x4B [0x03])
  = (mkMessage CMessage 0x4B [0x03],
     Ok (Py.slice [0xA4; 0x01; 0x4B; 0x03; 0xED; 0x00; 0x00] 0 5))
  ∧ 4 ≤ 5 ≤ 13
  ∧ cls (mkMessage CMessage 0x4B [0x03]) = cls (mkMessage CMessage 0 []).
Proof.
  apply (decode_accepts_only_encodings (H:=ant_constants)
           [0xA4; 0x01; 0x4B; 0x03; 0xED; 0x00; 0x00]
           (mkMessage CMessage 0 []) (mkMessage CMessage 0x4B [0x03]) 5).
  by vm_compute.
Defined.

(** X3. A frame without payload is accepted only with a byte behind it:
    followed by at least one byte it decodes to the empty payload with 4
    bytes consumed, and alone it fails Incomplete, since [decode] asks for
    5 bytes before it reads the length. *)
Theorem decode_empty_payload_needs_a_following_byte `{Constants}
    (t : Z) (extra : list Z) (self : Message) :
  Py.is_byte MESSAGE_TX_SYNC →
  0 ≤ t ≤ 255 →
  Forall Py.is_byte extra →
  ∃ raw,
    Message.encode (mkMessage CMessage t [])
    = (mkMessage CMessage t [], Ok raw)
    ∧ (extra = [] →
       Message.decode (raw ++ extra) self = (self, Raise decode_incomplete))
    ∧ (extra ≠ [] →
       Message.decode (raw ++ extra) self
       = (mkMessage (cls self) t [], Ok 4)).
Proof.
  intros Hs Ht He.
  assert (Py.is_byte t) as Ht' by (unfold Py.is_byte; lia).
  assert (Py.is_byte (xor_all [MESSAGE_TX_SYNC; 0; t])) as Hc
    by (apply xor_all_byte; bytes).
  eexists. split; [by apply encode_eq|]. cbn [payload type_ app].
  change (Py.len []) with 0. split.
  - intros ->. apply decode_short; [|done]. bytes.
  - intros Hne. destruct extra as [|e extra]; [done|].
    apply List.Forall_cons_iff in He as [He0 He].
    rewrite decode_frame.
    + rewrite decide_False by (intros Hx; by apply Hx).
      rewrite decide_False by lia.
      rewrite decide_False by (unfold Py.len; simpl; lia).
      cbv zeta. change (Z.to_nat 0) with 0%nat.
      cbn [lookup list_lookup take].
      by rewrite decide_False by (intros Hx; by apply Hx).
    + bytes.
    + unfold Py.len. simpl. lia.
Qed.

Lemma decode_empty_payload_needs_a_following_byte_witness :
  ∃ raw,
    Message.encode (H:=ant_constants) (mkMessage CMessage 0x4A [])
    = (mkMessage CMessage 0x4A [], Ok raw)
    ∧ ([0xA4] = [] →
       Message.decode (H:=ant_constants) (raw ++ [0xA4])
         (mkMessage CMessage 0 [])
       = (mkMessage CMessage 0 [], Raise decode_incomplete))
    ∧ ([0xA4] ≠ [] →
       Message.decode (H:=ant_constants) (raw ++ [0xA4])
         (mkMessage CMessage 0 [])
       = (mkMessage CMessage 0x4A [], Ok 4)).
Proof.
  apply (decode_empty_payload_needs_a_following_byte (H:=ant_constants)
           0x4A [0xA4] (mkMessage CMessage 0 []));
    [by vm_compute|by vm_compute|bytes].
Defined.

(** ** The frame as a whole *)

(** X4. The bytes of an encoded frame XOR to zero: the checksum byte
    cancels the XOR of everything before it. *)
Theorem encoded_frame_xors_to_zero `{Constants}
    (self self' : Message) (raw : list Z) :
  Message.encode self = (self', Ok raw) → xor_all raw = 0.
Proof.
  intros Henc. apply encode_ok_inv in Henc as [_ ->].
  rewrite xor_all_app, xor_all_app.
  change (xor_all (MESSAGE_TX_SYNC :: Py.len (payload self) :: type_ self
                     :: payload self))
    with (xor_all ([MESSAGE_TX_SYNC; Py.len (payload self); type_ self]
                     ++ payload self)).
  rewrite (xor_all_app [_; _; _]).
  generalize (xor_all [MESSAGE_TX_SYNC; Py.len (payload self); type_ self]).
  generalize (xor_all (payload self)). intros b a.
  cbn [xor_all foldr]. rewrite Z.lxor_0_r, <- Z.lxor_assoc.
  apply Z.lxor_nilpotent.
Qed.

Lemma encoded_frame_xors_to_zero_witness :
  xor_all [0xA4; 0x01; 0x4B; 0x03; 0xED] = 0.
Proof.
  apply (encoded_frame_xors_to_zero (H:=ant_constants)
           (mkMessage CMessage 0x4B [0x03]) (mkMessage CMessage 0x4B [0x03])).
  by vm_compute.
Defined.

(** X5. [encode] is injective on type and payload: two messages with the
    same frame have the same type and the same payload. *)
Theorem encode_injective `{Constants}
    (m1 m1' m2 m2' : Message) (raw : list Z) :
  Message.encode m1 = (m1', Ok raw) →
  Message.encode m2 = (m2', Ok raw) →
  type_ m1 = type_ m2 ∧ payload m1 = payload m2.
Proof.
  intros H1 H2. apply encode_ok_inv in H1 as [_ ->].
  apply encode_ok_inv in H2 as [_ Heq]. cbn [app] in Heq.
  injection Heq as Hlen Ht Hp. split; [done|].
  apply app_inj_1 in Hp as [Hp _]; [done|]. unfold Py.len in Hlen. lia.
Qed.

Lemma encode_injective_witness :
  type_ (mkMessage CMessage 0x4B [0x03])
  = type_ (mkMessage CChannelOpenMessage 0x4B [0x03])
  ∧ payload (mkMessage CMessage 0x4B [0x03])
    = payload (mkMessage CChannelOpenMessage 0x4B [0x03]).
Proof.
  apply (encode_injective (H:=ant_constants)
           (mkMessage CMessage 0x4B [0x03]) (mkMessage CMessage 0x4B [0x03])
           (mkMessage CChannelOpenMessage 0x4B [0x03])
           (mkMessage CChannelOpenMessage 0x4B [0x03])
           [0xA4; 0x01; 0x4B; 0x03; 0xED]); by vm_compute.
Defined.

(** X6. [getSize] is the length of the frame: whenever [encode] succeeds,
    [getSize] returns the number of bytes [encode] produced, and changes
    nothing. *)
Theorem getSize_is_frame_length `{Constants}
    (self self' : Message) (raw : list Z) :
  Message.encode self = (self', Ok raw) →
  Message.getSize self = (self, Ok (Py.len raw)).
Proof.
  intros Henc. apply encode_ok_inv in Henc as [_ ->].
  unfold Message.getSize. run. do 2 f_equal.
  rewrite (len_app [_; _; _]), len_app. unfold Py.len. simpl. lia.
Qed.

Lemma getSize_is_frame_length_witness :
  Message.getSize (mkMessage CMessage 0x4B [0x03])
  = (mkMessage CMessage 0x4B [0x03],
     Ok (Py.len [0xA4; 0x01; 0x4B; 0x03; 0xED])).
Proof.
  apply (getSize_is_frame_length (H:=ant_constants)
           (mkMessage CMessage 0x4B [0x03]) (mkMessage CMessage 0x4B [0x03])).
  by vm_compute.
Defined.

(** ** Dispatch, continued *)

(** [getHandler] past a successful [decode]. *)
Lemma getHandler_after_decode `{K : Constants} raw self self' n :
  constants_ok K →
  Message.decode raw self = (self', Ok n) →
  getHandler raw self
  = (self', match TYPE_TABLE !! type_ self' with
            | Some c => Ok (mkMessage c (type_ self') (payload self'))
            | None => Raise (KeyError (type_ self'))
            end).
Proof.
  intros HK Hdec.
  destruct (decode_ok_inv _ _ _ _ Hdec) as (Ht & Hp & _).
  unfold getHandler, dict_get. run. rewrite Hdec.
  destruct (TYPE_TABLE !! type_ self') as [c|] eqn:Hc; [|done].
  destruct (instantiate_registered (type_ self') c HK) as [p0 Hinst].
  { by apply dict_display_lookup. }
  rewrite Hinst. by rewrite setPayload_short by done.
Qed.

Lemma getHandler_after_failure `{K : Constants} raw self self' e :
  Message.decode raw self = (self', Raise e) →
  getHandler raw self = (self', Raise e).
Proof. intros Hdec. unfold getHandler. run. by rewrite Hdec. Qed.

(** X7. What [getHandler] returns encodes back to the bytes it was read
    from: when [getHandler] succeeds, [decode] succeeded on the same
    buffer with some count [n], the instance returned is of the class
    registered for its type code, and its encoding is the first [n] bytes
    of the buffer. *)
Theorem getHandler_reencodes `{K : Constants}
    (raw : list Z) (self self' msg : Message) :
  constants_ok K →
  getHandler raw self = (self', Ok msg) →
  ∃ n,
    Message.decode raw self = (self', Ok n)
    ∧ TYPE_TABLE !! type_ msg = Some (cls msg)
    ∧ Message.encode msg = (msg, Ok (Py.slice raw 0 n)).
Proof.
  intros HK Hget.
  destruct (Message.decode raw self) as [s1 [n|e]] eqn:Hdec;
    [|by rewrite (getHandler_after_failure _ _ _ _ Hdec) in Hget].
  rewrite (getHandler_after_decode _ _ _ _ HK Hdec) in Hget.
  destruct (TYPE_TABLE !! type_ s1) as [c|] eqn:Hc; [|done].
  injection Hget as -> <-. exists n. split; [done|]. split; [done|].
  destruct (decode_ok_frame _ _ _ _ Hdec)
    as (Hs & [Ht0 Ht1] & Hb & _ & Hp & _ & Henc).
  apply encode_ok_inv in Henc as [_ ->].
  by rewrite encode_eq; cbn [payload type_]; [|done|lia|done|done].
Qed.

Lemma getHandler_reencodes_witness :
  constants_ok ant_constants
  ∧ ∃ n,
      Message.decode (H:=ant_constants) [0xA4; 0x01; 0x4B; 0x03; 0xED; 0x00]
        (mkMessage CMessage 0 [])
      = (mkMessage CMessage 0x4B [0x03], Ok n)
      ∧ TYPE_TABLE (H:=ant_constants)
          !! type_ (mkMessage CChannelOpenMessage 0x4B [0x03])
        = Some (cls (mkMessage CChannelOpenMessage 0x4B [0x03]))
      ∧ Message.encode (H:=ant_constants)
          (mkMessage CChannelOpenMessage 0x4B [0x03])
        = (mkMessage CChannelOpenMessage 0x4B [0x03],
           Ok (Py.slice [0xA4; 0x01; 0x4B; 0x03; 0xED; 0x00] 0 n)).
Proof.
  assert (constants_ok ant_constants) as HK
    by (apply (bool_decide_unpack _); by vm_compute).
  split; [exact HK|].
  apply (getHandler_reencodes (K:=ant_constants)
           [0xA4; 0x01; 0x4B; 0x03; 0xED; 0x00] (mkMessage CMessage 0 [])
           (mkMessage CMessage 0x4B [0x03])
           (mkMessage CChannelOpenMessage 0x4B [0x03]) HK).
  by vm_compute.
Defined.

(** X8. [getHandler] raises what [decode] raises and, beyond that, only
    [KeyError]: the call fails with an exception, leaving the receiver in
    some state, exactly when [decode] fails on the same buffer with that
    exception and that state, or [decode] succeeds with that state on a
    type code without entry in [TYPE_TABLE] and the exception is
    [KeyError] on that code.  Calling the registered class and installing
    the payload never raise. *)
Theorem getHandler_failures `{K : Constants}
    (raw : list Z) (self self' : Message) (e : exn) :
  constants_ok K →
  getHandler raw self = (self', Raise e)
  ↔ Message.decode raw self = (self', Raise e)
    ∨ ∃ n, Message.decode raw self = (self', Ok n)
           ∧ TYPE_TABLE !! type_ self' = None
           ∧ e = KeyError (type_ self').
Proof.
  intros HK.
  destruct (Message.decode raw self) as [s1 [n|e1]] eqn:Hdec.
  - rewrite (getHandler_after_decode _ _ _ _ HK Hdec).
    destruct (TYPE_TABLE !! type_ s1) as [c|] eqn:Hc; split.
    + done.
    + intros [?|(n' & [= <- <-] & Hnone & _)]; [done|]. congruence.
    + intros [= <- <-]. right. by exists n.
    + intros [?|(n' & [= <- <-] & _ & ->)]; done.
  - rewrite (getHandler_after_failure _ _ _ _ Hdec). split.
    + intros [= <- <-]. by left.
    + intros [[= <- <-]|(n' & ? & _)]; done.
Qed.

Lemma getHandler_failures_witness :
  constants_ok ant_constants
  ∧ getHandler (H:=ant_constants) [0xA4; 0x01; 0x02; 0x03; 0xA4]
      (mkMessage CMessage 0 [])
    = (mkMessage CMessage 0x02 [0x03], Raise (KeyError 0x02)).
Proof.
  assert (constants_ok ant_constants) as HK
    by (apply (bool_decide_unpack _); by vm_compute).
  split; [exact HK|].
  apply (getHandler_failures (K:=ant_constants)
           [0xA4; 0x01; 0x02; 0x03; 0xA4] (mkMessage CMessage 0 [])
           (mkMessage CMessage 0x02 [0x03]) (KeyError 0x02) HK).
  right. exists 5. by vm_compute.
Defined.

(** ** The registry *)

Lemma foldl_insert_other {V} (entries : list (Z * V)) (d : gmap Z V) k :
  k ∉ entries.*1 →
  foldl (λ d kv, <[kv.1 := kv.2]> d) d entries !! k = d !! k.
Proof.
  revert d. induction entries as [|[k' v'] entries IH]; intros d Hk; simpl;
    [done|].
  simpl in Hk. apply not_elem_of_cons in Hk as [Hne Hk].
  rewrite IH by done. by rewrite lookup_insert_ne.
Qed.

(** With keys that are all different, every entry of a dictionary display
    is found under its key. *)
Lemma dict_display_lookup_NoDup {V} (entries : list (Z * V)) k v :
  NoDup entries.*1 → (k, v) ∈ entries → dict_display entries !! k = Some v.
Proof.
  unfold dict_display. generalize (∅ : gmap Z V).
  induction entries as [|[k' v'] entries IH]; intros d Hnd Hin; simpl in *.
  - by apply elem_of_nil in Hin.
  - apply NoDup_cons in Hnd as [Hk' Hnd].
    apply elem_of_cons in Hin as [[= -> ->]|Hin].
    + rewrite foldl_insert_other by done. apply lookup_insert_eq.
    + by apply IH.
Qed.

(** The call of a registered class without arguments, with the payload
    it leaves. *)
Lemma instantiate_default `{K : Constants} k c :
  constants_ok K → (k, c) ∈ TYPE_TABLE_entries →
  instantiate c = Ok (mkMessage c k (default_payload c)).
Proof.
  intros [Hs Hcodes] Hin.
  unfold type_codes in Hcodes. rewrite !Forall_cons in Hcodes.
  destruct Hcodes as
    (?&?&?&?&?&?&?&?&?&?&?&?&?&?&?&?&?&?&?&?&?&?&_).
  unfold TYPE_TABLE_entries in Hin.
  repeat (apply elem_of_cons in Hin as [[= -> ->]|Hin]);
    [..|by apply elem_of_nil in Hin];
    unfold instantiate, new;
    unfold ChannelUnassignMessage.__init__, ChannelAssignMessage.__init__,
      ChannelIDMessage.__init__, ChannelPeriodMessage.__init__,
      ChannelSearchTimeoutMessage.__init__, ChannelFrequencyMessage.__init__,
      ChannelTXPowerMessage.__init__, NetworkKeyMessage.__init__,
      TXPowerMessage.__init__, SystemResetMessage.__init__,
      ChannelOpenMessage.__init__, ChannelCloseMessage.__init__,
      ChannelRequestMessage.__init__,
      ChannelBroadcastDataMessage.__init__,
      ChannelAcknowledgedDataMessage.__init__,
      ChannelBurstDataMessage.__init__, ChannelEventMessage.__init__,
      ChannelStatusMessage.__init__, VersionMessage.__init__,
      StartupMessage.__init__, CapabilitiesMessage.__init__,
      SerialNumberMessage.__init__;
    try (unfold mbind at 1, method_bind at 1);
    first [ rewrite ChannelMessage_init_eq
              by first [ done | by vm_compute | by apply Forall_replicate ]
          | rewrite Message_init_eq by (done || by vm_compute)
          | idtac ];
    try reflexivity.
  - unfold ChannelRequestMessage.setMessageID.
    assert (Py.is_byte MESSAGE_CHANNEL_STATUS) as Hstatus by done.
    destruct Hstatus as [? ?]. rewrite decide_False by lia.
    unfold payload_set, Py.setitem. run.
    change (Py.index (0 :: Py.zeros 1) 1) with (Some 1%nat).
    cbv beta iota. rewrite decide_True by done. reflexivity.
  - unfold Message.__init__. run. rewrite setType_byte by done. reflexivity.
Qed.

Lemma default_payload_ok `{K : Constants} k c :
  constants_ok K → (k, c) ∈ TYPE_TABLE_entries →
  1 ≤ Py.len (default_payload c) ≤ 9 ∧ Forall Py.is_byte (default_payload c).
Proof.
  intros [Hs Hcodes] Hin.
  assert (Py.is_byte MESSAGE_CHANNEL_STATUS) as Hstatus.
  { unfold type_codes in Hcodes. rewrite !Forall_cons in Hcodes. tauto. }
  unfold TYPE_TABLE_entries in Hin.
  repeat (apply elem_of_cons in Hin as [[= -> ->]|Hin]);
    [..|by apply elem_of_nil in Hin];
    (split; [by vm_compute|cbn [default_payload replicate]; bytes]).
Qed.

(** X10. Every class of the registry can be called without arguments:
    the call succeeds and gives an instance of that class with the type
    code it is registered under and the default payload of the class,
    which has between 1 and 9 bytes. *)
Theorem registered_classes_instantiate `{K : Constants} (k : Z) (c : Class) :
  constants_ok K →
  (k, c) ∈ TYPE_TABLE_entries →
  ∃ m,
    instantiate c = Ok m
    ∧ cls m = c ∧ type_ m = k ∧ payload m = default_payload c
    ∧ 1 ≤ Py.len (payload m) ≤ 9
    ∧ Forall Py.is_byte (payload m).
Proof.
  intros HK Hin. eexists. split; [by apply instantiate_default|].
  cbn [cls type_ payload]. do 3 (split; [done|]).
  by apply (default_payload_ok k).
Qed.

Lemma registered_classes_instantiate_witness :
  constants_ok ant_constants
  ∧ ∃ m,
      instantiate (H:=ant_constants) CChannelPeriodMessage = Ok m
      ∧ cls m = CChannelPeriodMessage ∧ type_ m = 0x43
      ∧ payload m = [0; 0x00; 0x20]
      ∧ 1 ≤ Py.len (payload m) ≤ 9
      ∧ Forall Py.is_byte (payload m).
Proof.
  assert (constants_ok ant_constants) as HK
    by (apply (bool_decide_unpack _); by vm_compute).
  split; [exact HK|].
  apply (registered_classes_instantiate (K:=ant_constants) 0x43
           CChannelPeriodMessage HK).
  apply (bool_decide_unpack _). by vm_compute.
Defined.

(** X11. With type codes that are all different, the registry inverts the
    constructors: the default instance of a registered class encodes to a
    frame that [getHandler] resolves to that very instance, leaving the
    decoded type and payload in the receiver. *)
Theorem registry_roundtrip `{K : Constants} (k : Z) (c : Class) :
  constants_ok K →
  NoDup type_codes →
  (k, c) ∈ TYPE_TABLE_entries →
  ∃ m raw,
    instantiate c = Ok m
    ∧ Message.encode m = (m, Ok raw)
    ∧ ∀ self, getHandler raw self
              = (mkMessage (cls self) k (payload m), Ok m).
Proof.
  intros HK Hnd Hin.
  destruct (default_payload_ok k c HK Hin) as [Hlen Hb].
  assert (Py.is_byte k) as [Hk0 Hk1].
  { destruct HK as [_ Hcodes]. apply Forall_forall with (x := k) in Hcodes;
      [done|]. change type_codes with (TYPE_TABLE_entries.*1).
    by apply (list_elem_of_fmap_2 fst _ (k, c)). }
  destruct HK as [Hs Hcodes].
  eexists _, _. split; [by apply instantiate_default|].
  split; [apply encode_eq; cbn [payload type_]; [done|lia|lia|done]|].
  intros self. cbn [payload type_].
  assert (Message.decode
            ([MESSAGE_TX_SYNC; Py.len (default_payload c); k]
               ++ default_payload c
               ++ [xor_all (MESSAGE_TX_SYNC :: Py.len (default_payload c)
                              :: k :: default_payload c)]) self
          = (mkMessage (cls self) k (default_payload c),
             Ok (Py.len (default_payload c) + 4))) as Hdec
    by (apply decode_encoded; [done|lia|done|done]).
  rewrite (getHandler_after_decode _ _ _ _ (conj Hs Hcodes) Hdec).
  cbn [type_ payload].
  unfold TYPE_TABLE.
  by rewrite (dict_display_lookup_NoDup TYPE_TABLE_entries k c).
Qed.

Lemma registry_roundtrip_witness :
  constants_ok ant_constants ∧ NoDup (type_codes (H:=ant_constants))
  ∧ ∃ m raw,
      instantiate (H:=ant_constants) CNetworkKeyMessage = Ok m
      ∧ Message.encode (H:=ant_constants) m = (m, Ok raw)
      ∧ ∀ self, getHandler (H:=ant_constants) raw self
                = (mkMessage (cls self) 0x46 (payload m), Ok m).
Proof.
  assert (constants_ok ant_constants) as HK
    by (apply (bool_decide_unpack _); by vm_compute).
  assert (NoDup (type_codes (H:=ant_constants))) as Hnd
    by (apply (bool_decide_unpack _); by vm_compute).
  split; [exact HK|]. split; [exact Hnd|].
  apply (registry_roundtrip (K:=ant_constants) 0x46 CNetworkKeyMessage HK Hnd).
  apply (bool_decide_unpack _). by vm_compute.
Defined.

(** ** The one-byte fields *)

Lemma payload_get_ok (i v : Z) (n : nat) self :
  Py.index (payload self) i = Some n → payload self !! n = Some v →
  payload_get i self = (self, Ok v).
Proof.
  intros Hi Hv. unfold payload_get, Py.getitem. run. by rewrite Hi, Hv.
Qed.

Lemma payload_get_bad_index (i : Z) self :
  Py.index (payload self) i = None →
  payload_get i self = (self, Raise IndexError).
Proof. intros Hi. unfold payload_get, Py.getitem. run. by rewrite Hi. Qed.

Lemma index_past_the_end {A} (l : list A) (i : Z) :
  Py.len l ≤ i → Py.index l i = None.
Proof.
  intros Hi. unfold Py.index, Py.len in *.
  rewrite decide_False by lia. by rewrite decide_False by lia.
Qed.

Lemma payload_set_get (i v : Z) self :
  0 ≤ i < Py.len (payload self) → Py.is_byte v →
  let self' := with_payload (<[Z.to_nat i := v]> (payload self)) self in
  payload_set i v self = (self', Ok ())
  ∧ payload_get i self' = (self', Ok v).
Proof.
  intros Hi Hv self'. split.
  - by apply payload_set_ok; [apply index_in_range|].
  - apply (payload_get_ok i v (Z.to_nat i)); subst self';
      unfold with_payload; cbn [payload].
    + apply index_in_range. unfold Py.len in *. by rewrite length_insert.
    + apply list_lookup_insert_eq. unfold Py.len in *. lia.
Qed.

(** X12. Every one-byte field reads back what was written: with a byte
    value and a payload that reaches the field's offset, the setter
    replaces the byte at that offset, leaving the class, the type and
    every other payload byte alone, and the getter then returns the value
    written. *)
Theorem byte_field_set_then_get
    (set : Z → method ()) (get : method Z) (i v : Z) (self : Message) :
  (set, get, i) ∈ byte_fields →
  Py.is_byte v →
  i < Py.len (payload self) →
  let self' := with_payload (<[Z.to_nat i := v]> (payload self)) self in
  set v self = (self', Ok ()) ∧ get self' = (self', Ok v).
Proof.
  intros Hin Hv Hi. pose proof Hv as [Hv0 Hv1]. unfold byte_fields in Hin.
  repeat (apply elem_of_cons in Hin as [[= -> -> ->]|Hin]);
    [..|by apply elem_of_nil in Hin];
    unfold_fields; rewrite ?decide_False by lia;
    apply payload_set_get; (done || lia).
Qed.

Lemma byte_field_set_then_get_witness :
  Py.is_byte 0x10
  ∧ ChannelAssignMessage.setChannelType 0x10
      (mkMessage CChannelAssignMessage 0x42 [0; 0; 0])
    = (mkMessage CChannelAssignMessage 0x42 [0; 0x10; 0], Ok ())
  ∧ ChannelAssignMessage.getChannelType
      (mkMessage CChannelAssignMessage 0x42 [0; 0x10; 0])
    = (mkMessage CChannelAssignMessage 0x42 [0; 0x10; 0], Ok 0x10).
Proof.
  assert (Py.is_byte 0x10) as Hv by by vm_compute.
  split; [exact Hv|].
  apply (byte_field_set_then_get ChannelAssignMessage.setChannelType
           ChannelAssignMessage.getChannelType 1 0x10
           (mkMessage CChannelAssignMessage 0x42 [0; 0; 0]));
    [|exact Hv|by vm_compute].
  unfold byte_fields. apply elem_of_cons. right. apply elem_of_cons. by left.
Defined.

(** X13. Past the end of the payload every one-byte field raises
    [IndexError]: when the payload is too short to hold the field, the
    getter raises it, and so does the setter given a byte value, and the
    message is left as it was. *)
Theorem byte_field_past_the_end
    (set : Z → method ()) (get : method Z) (i v : Z) (self : Message) :
  (set, get, i) ∈ byte_fields →
  Py.is_byte v →
  Py.len (payload self) ≤ i →
  set v self = (self, Raise IndexError)
  ∧ get self = (self, Raise IndexError).
Proof.
  intros Hin [Hv0 Hv1] Hi. unfold byte_fields in Hin.
  repeat (apply elem_of_cons in Hin as [[= -> -> ->]|Hin]);
    [..|by apply elem_of_nil in Hin];
    unfold_fields; rewrite ?decide_False by lia;
    (split; [apply payload_set_bad_index|apply payload_get_bad_index]);
    by apply index_past_the_end.
Qed.

Lemma byte_field_past_the_end_witness :
  Py.is_byte 0x10
  ∧ ChannelIDMessage.setTransmissionType 0x10
      (mkMessage CChannelIDMessage 0x51 [0; 0; 0])
    = (mkMessage CChannelIDMessage 0x51 [0; 0; 0], Raise IndexError)
  ∧ ChannelIDMessage.getTransmissionType
      (mkMessage CChannelIDMessage 0x51 [0; 0; 0])
    = (mkMessage CChannelIDMessage 0x51 [0; 0; 0], Raise IndexError).
Proof.
  assert (Py.is_byte 0x10) as Hv by by vm_compute.
  split; [exact Hv|].
  apply (byte_field_past_the_end ChannelIDMessage.setTransmissionType
           ChannelIDMessage.getTransmissionType 4 0x10
           (mkMessage CChannelIDMessage 0x51 [0; 0; 0]));
    [|exact Hv|by vm_compute].
  unfold byte_fields. do 4 (apply elem_of_cons; right).
  apply elem_of_cons. by left.
Defined.

(** X14. The setters with a range test of their own refuse a value
    outside 0..255 before they touch the payload: whatever the payload
    is, they raise the [MessageError] that names the field and leave the
    message as it was. *)
Theorem guarded_setter_rejects
    (set : Z → method ()) (name : string) (v : Z) (self : Message) :
  (set, name) ∈ guarded_setters →
  ¬ 0 ≤ v ≤ 255 →
  set v self
  = (self, Raise (MessageError
                    ("Could not set " +:+ name +:+ " (out of range).")
                    None)).
Proof.
  intros Hin Hv. unfold guarded_setters in Hin.
  repeat (apply elem_of_cons in Hin as [[= -> ->]|Hin]);
    [..|by apply elem_of_nil in Hin];
    unfold_fields; by rewrite decide_True by lia.
Qed.

Lemma guarded_setter_rejects_witness :
  ChannelStatusMessage.setStatus 256 (mkMessage CChannelStatusMessage 0x52 [])
  = (mkMessage CChannelStatusMessage 0x52 [],
     Raise (MessageError "Could not set channel status (out of range)." None)).
Proof.
  apply (guarded_setter_rejects ChannelStatusMessage.setStatus
           "channel status" 256 (mkMessage CChannelStatusMessage 0x52 []));
    [|lia].
  unfold guarded_setters. do 4 (apply elem_of_cons; right).
  apply elem_of_cons. by left.
Defined.

(** X15. The one-byte setters without a range test leave the refusal to
    the bytearray: given a value outside 0..255 and a payload that
    reaches the field's offset, they raise [ValueError] and leave the
    message as it was. *)
Theorem unguarded_setter_raises_ValueError
    (set : Z → method ()) (i v : Z) (self : Message) :
  (set, i) ∈ unguarded_setters →
  ¬ 0 ≤ v ≤ 255 →
  i < Py.len (payload self) →
  set v self = (self, Raise ValueError).
Proof.
  intros Hin Hv Hi. unfold unguarded_setters in Hin.
  repeat (apply elem_of_cons in Hin as [[= -> ->]|Hin]);
    [..|by apply elem_of_nil in Hin];
    unfold_fields;
    (eapply payload_set_bad_value;
       [apply index_in_range; lia|unfold Py.is_byte; lia]).
Qed.

Lemma unguarded_setter_raises_ValueError_witness :
  NetworkKeyMessage.setNumber (-1)
    (mkMessage CNetworkKeyMessage 0x46 (replicate 9 0))
  = (mkMessage CNetworkKeyMessage 0x46 (replicate 9 0), Raise ValueError).
Proof.
  apply (unguarded_setter_raises_ValueError NetworkKeyMessage.setNumber 0 (-1)
           (mkMessage CNetworkKeyMessage 0x46 (replicate 9 0)));
    [|lia|by vm_compute].
  unfold unguarded_setters. do 7 (apply elem_of_cons; right).
  apply elem_of_cons. by left.
Defined.

(** ** The two-byte fields *)

Lemma pack_H_bytes n :
  0 ≤ n ≤ 65535 →
  Py.pack_H n = Ok [n `mod` 256; n `div` 256]
  ∧ Forall Py.is_byte [n `mod` 256; n `div` 256]
  ∧ n `mod` 256 + 256 * (n `div` 256) = n.
Proof.
  intros Hn. unfold Py.pack_H. rewrite decide_True by done.
  split; [done|]. split.
  - pose proof (Z.mod_pos_bound n 256 ltac:(lia)).
    assert (0 ≤ n `div` 256 < 256)
      by (split; [apply Z.div_pos; lia|apply Z.div_lt_upper_bound; lia]).
    unfold Py.is_byte. repeat (apply List.Forall_cons; [lia|]).
    apply List.Forall_nil.
  - pose proof (Z.div_mod n 256 ltac:(lia)). lia.
Qed.

Lemma two_byte_set_get n (p : list Z) :
  0 ≤ n ≤ 65535 → 3 ≤ Py.len p →
  let p' := take 1 p ++ [n `mod` 256; n `div` 256] ++ drop 3 p in
  (packed ← Py.pack_H n; Py.setslice p 1 3 packed) = Ok p'
  ∧ Py.unpack_H (Py.slice p' 1 3) = Ok n
  ∧ Py.len p' = Py.len p.
Proof.
  intros Hn Hp p'. destruct (pack_H_bytes n Hn) as (Hpack & Hb & Hsum).
  destruct p as [|a [|b [|c rest]]];
    try (unfold Py.len in Hp; simpl in Hp; lia).
  rewrite Hpack. unfold Py.setslice, Py.bytearray. run.
  rewrite decide_True by done. subst p'. split; [done|].
  split; [|done].
  change (Py.slice (take 1 (a :: b :: c :: rest)
                      ++ [n `mod` 256; n `div` 256]
                      ++ drop 3 (a :: b :: c :: rest)) 1 3)
    with [n `mod` 256; n `div` 256].
  cbn [Py.unpack_H]. by rewrite Hsum.
Qed.

(** X16. The two-byte fields are little-endian and read back what was
    written: for a number in 0..65535 and a payload of 3 bytes or more,
    [setDeviceNumber] and [setChannelPeriod] put the low byte at offset 1
    and the high byte at offset 2, keep every other byte and the length,
    and the getter then returns the number. *)
Theorem two_byte_field_set_then_get (n : Z) (self : Message) :
  0 ≤ n ≤ 65535 →
  3 ≤ Py.len (payload self) →
  let p' := take 1 (payload self) ++ [n `mod` 256; n `div` 256]
              ++ drop 3 (payload self) in
  ChannelIDMessage.setDeviceNumber n self = (with_payload p' self, Ok ())
  ∧ ChannelIDMessage.getDeviceNumber (with_payload p' self)
    = (with_payload p' self, Ok n)
  ∧ ChannelPeriodMessage.setChannelPeriod n self
    = (with_payload p' self, Ok ())
  ∧ ChannelPeriodMessage.getChannelPeriod (with_payload p' self)
    = (with_payload p' self, Ok n)
  ∧ Py.len p' = Py.len (payload self).
Proof.
  intros Hn Hp p'.
  destruct (two_byte_set_get n (payload self) Hn Hp) as (Hset & Hget & Hlen).
  fold p' in Hset, Hget, Hlen.
  unfold ChannelIDMessage.setDeviceNumber, ChannelIDMessage.getDeviceNumber,
    ChannelPeriodMessage.setChannelPeriod,
    ChannelPeriodMessage.getChannelPeriod.
  revert Hset. unfold mbind at 1, result_bind. run. unfold with_payload.
  cbn [payload]. rewrite Hget.
  destruct (Py.pack_H n) as [packed|]; [|done]. intros ->. done.
Qed.

Lemma two_byte_field_set_then_get_witness :
  ChannelIDMessage.setDeviceNumber 1000
    (mkMessage CChannelIDMessage 0x51 [0; 0; 0; 5; 1])
  = (mkMessage CChannelIDMessage 0x51 [0; 0xE8; 0x03; 5; 1], Ok ())
  ∧ ChannelIDMessage.getDeviceNumber
      (mkMessage CChannelIDMessage 0x51 [0; 0xE8; 0x03; 5; 1])
    = (mkMessage CChannelIDMessage 0x51 [0; 0xE8; 0x03; 5; 1], Ok 1000).
Proof.
  destruct (two_byte_field_set_then_get 1000
              (mkMessage CChannelIDMessage 0x51 [0; 0; 0; 5; 1]))
    as (Hset & Hget & _); [lia|by vm_compute|].
  split; [exact Hset|exact Hget].
Defined.

(** ** The byte-string fields *)

(** X17. [setKey] and [getKey] on a payload that holds the network
    number: a key of bytes replaces everything behind the first payload
    byte, [getKey] returns it, [getNumber] is unaffected, and with a key
    of 8 bytes the payload has 9 bytes. *)
Theorem setKey_then_getKey (key : list Z) (self : Message) :
  Forall Py.is_byte key →
  1 ≤ Py.len (payload self) →
  let self' := with_payload (take 1 (payload self) ++ key) self in
  NetworkKeyMessage.setKey key self = (self', Ok ())
  ∧ NetworkKeyMessage.getKey self' = (self', Ok key)
  ∧ (NetworkKeyMessage.getNumber self').2
    = (NetworkKeyMessage.getNumber self).2
  ∧ Py.len (payload self') = 1 + Py.len key.
Proof.
  intros Hkey Hp self'. split; [by apply setKey_eq|].
  destruct self as [c t [|a p]];
    [unfold Py.len in Hp; simpl in Hp; lia|].
  subst self'. unfold with_payload. cbn [payload take app cls type_].
  split; [done|]. split; [done|].
  unfold Py.len. simpl. lia.
Qed.

Lemma setKey_then_getKey_witness :
  Forall Py.is_byte (replicate 8 0xFF)
  ∧ NetworkKeyMessage.setKey (replicate 8 0xFF)
      (mkMessage CNetworkKeyMessage 0x46 (2 :: replicate 8 0))
    = (mkMessage CNetworkKeyMessage 0x46 (2 :: replicate 8 0xFF), Ok ())
  ∧ NetworkKeyMessage.getKey
      (mkMessage CNetworkKeyMessage 0x46 (2 :: replicate 8 0xFF))
    = (mkMessage CNetworkKeyMessage 0x46 (2 :: replicate 8 0xFF),
       Ok (replicate 8 0xFF)).
Proof.
  assert (Forall Py.is_byte (replicate 8 0xFF)) as Hb
    by by apply Forall_replicate.
  split; [exact Hb|].
  destruct (setKey_then_getKey (replicate 8 0xFF)
              (mkMessage CNetworkKeyMessage 0x46 (2 :: replicate 8 0)) Hb)
    as (Hset & Hget & _); [by vm_compute|].
  split; [exact Hset|exact Hget].
Defined.

(** X18. The version and the serial number have a fixed length:
    [setVersion] takes exactly 9 bytes and [setSerialNumber] exactly 4;
    any other length raises the [MessageError] of the field and leaves
    the message as it was, the right length replaces the whole payload,
    which the getter then returns. *)
Theorem fixed_length_fields (bs : list Z) (self : Message) :
  Forall Py.is_byte bs →
  (Py.len bs ≠ 9 →
     VersionMessage.setVersion bs self
     = (self, Raise (MessageError
                       "Could not set ANT version (expected 9 bytes)." None)))
  ∧ (Py.len bs = 9 →
     VersionMessage.setVersion bs self = (with_payload bs self, Ok ())
     ∧ VersionMessage.getVersion (with_payload bs self)
       = (with_payload bs self, Ok bs))
  ∧ (Py.len bs ≠ 4 →
     SerialNumberMessage.setSerialNumber bs self
     = (self, Raise (MessageError
                       "Could not set serial number (expected 4 bytes)."
                       None)))
  ∧ (Py.len bs = 4 →
     SerialNumberMessage.setSerialNumber bs self = (with_payload bs self, Ok ())
     ∧ SerialNumberMessage.getSerialNumber (with_payload bs self)
       = (with_payload bs self, Ok bs)).
Proof.
  intros Hb.
  unfold VersionMessage.setVersion, VersionMessage.getVersion,
    SerialNumberMessage.setSerialNumber, SerialNumberMessage.getSerialNumber,
    Message.getPayload, Py.bytearray.
  split; [|split; [|split]]; intros Hl.
  - by rewrite decide_True by done.
  - rewrite decide_False by (intros Hne; by apply Hne). run.
    rewrite decide_True by done.
    by rewrite setPayload_short by lia.
  - by rewrite decide_True by done.
  - rewrite decide_False by (intros Hne; by apply Hne). run.
    rewrite decide_True by done.
    by rewrite setPayload_short by lia.
Qed.

Lemma fixed_length_fields_witness :
  Forall Py.is_byte [1; 2; 3; 4]
  ∧ VersionMessage.setVersion [1; 2; 3; 4]
      (mkMessage CVersionMessage 0x3E (replicate 9 0))
    = (mkMessage CVersionMessage 0x3E (replicate 9 0),
       Raise (MessageError "Could not set ANT version (expected 9 bytes)."
                           None))
  ∧ SerialNumberMessage.setSerialNumber [1; 2; 3; 4]
      (mkMessage CVersionMessage 0x3E (replicate 9 0))
    = (mkMessage CVersionMessage 0x3E [1; 2; 3; 4], Ok ()).
Proof.
  assert (Forall Py.is_byte [1; 2; 3; 4]) as Hb by bytes.
  split; [exact Hb|].
  destruct (fixed_length_fields [1; 2; 3; 4]
              (mkMessage CVersionMessage 0x3E (replicate 9 0)) Hb)
    as (Hv & _ & _ & Hs).
  split; [by apply Hv|]. by apply Hs.
Defined.

(** ** Constructors *)

(** X19. [Message(type_, payload)] tests the type before the payload: a
    type outside 0..255 is refused with the Corrupted error whatever the
    payload is, too long or not, and [setType] with such a type leaves
    the message as it was. *)
Theorem type_is_checked_first (c : Class) (t : Z) (p : option (list Z))
    (self : Message) :
  ¬ 0 ≤ t ≤ 255 →
  new c (Message.__init__ t p)
  = Raise (MessageError "Could not set type (type out of range)."
                        (Some Message.CORRUPTED))
  ∧ Message.setType t self
    = (self, Raise (MessageError "Could not set type (type out of range)."
                                 (Some Message.CORRUPTED))).
Proof.
  intros Ht. unfold Message.__init__, Message.setType. run.
  by rewrite !decide_True by lia.
Qed.

Lemma type_is_checked_first_witness :
  new CMessage (Message.__init__ 256 (Some (replicate 10 0)))
  = Raise (MessageError "Could not set type (type out of range)."
                        (Some Message.CORRUPTED))
  ∧ Message.setType 256 (mkMessage CMessage 1 [2])
    = (mkMessage CMessage 1 [2],
       Raise (MessageError "Could not set type (type out of range)."
                           (Some Message.CORRUPTED))).
Proof.
  apply (type_is_checked_first CMessage 256 (Some (replicate 10 0))
           (mkMessage CMessage 1 [2])).
  lia.
Defined.

(** X20. [ChannelMessage] puts the channel number in front of the
    payload it is given: with a type and a number in 0..255 and up to 8
    bytes, the instance has the payload [number :: payload]; with more
    than 8 bytes the payload would exceed 9 and the Malformed error of
    [setPayload] is raised; with 8 bytes or fewer and a number outside
    0..255, the [MessageError] of the channel number. *)
Theorem ChannelMessage_layout (c : Class) (t number : Z) (p : list Z) :
  0 ≤ t ≤ 255 →
  Forall Py.is_byte p →
  (Py.len p ≤ 8 → 0 ≤ number ≤ 255 →
     new c (ChannelMessage.__init__ t p number)
     = Ok (mkMessage c t (number :: p)))
  ∧ (8 < Py.len p →
     new c (ChannelMessage.__init__ t p number)
     = Raise (MessageError "Could not set payload (payload too long)."
                           (Some Message.MALFORMED)))
  ∧ (Py.len p ≤ 8 → ¬ 0 ≤ number ≤ 255 →
     new c (ChannelMessage.__init__ t p number)
     = Raise (MessageError "Could not set channel number (out of range)."
                           None)).
Proof.
  intros Ht Hb.
  assert (Py.is_byte t) as Ht' by (unfold Py.is_byte; lia).
  assert (Py.len (Py.zeros 1 ++ p) = Py.len p + 1) as Hlen
    by (rewrite len_app; unfold Py.len; simpl; lia).
  unfold ChannelMessage.__init__, Py.concat. run.
  rewrite decide_True by done.
  split; [|split].
  - intros Hl Hn. rewrite Message_init_eq by (done || lia).
    unfold ChannelMessage.setChannelNumber. rewrite decide_False by lia.
    rewrite (payload_set_ok 0 number 0); [done|done|unfold Py.is_byte; lia].
  - intros Hl. unfold Message.__init__. run.
    rewrite setType_byte by done. run. unfold Message.setPayload.
    by rewrite decide_True by lia.
  - intros Hl Hn. rewrite Message_init_eq by (done || lia).
    unfold ChannelMessage.setChannelNumber. by rewrite decide_True by lia.
Qed.

Lemma ChannelMessage_layout_witness :
  Forall Py.is_byte [7; 8]
  ∧ new CChannelMessage (ChannelMessage.__init__ 0x4E [7; 8] 3)
    = Ok (mkMessage CChannelMessage 0x4E [3; 7; 8]).
Proof.
  assert (Forall Py.is_byte [7; 8]) as Hb by bytes.
  split; [exact Hb|].
  destruct (ChannelMessage_layout CChannelMessage 0x4E 3 [7; 8])
    as (Hok & _); [lia|exact Hb|].
  apply Hok; [by vm_compute|lia].
Defined.

(** ** Advanced options 2 *)

Lemma setAdvOptions2_overwrites (v : Z) self :
  Py.is_byte v → 5 ≤ Py.len (payload self) →
  CapabilitiesMessage.setAdvOptions2 v self
  = (with_payload (<[4%nat := v]> (payload self)) self, Ok ()).
Proof.
  intros Hv Hl. unfold CapabilitiesMessage.setAdvOptions2.
  rewrite decide_False by (unfold Py.is_byte in Hv; lia).
  run. rewrite decide_False by lia. run. unfold Py.setitem.
  rewrite (index_in_range _ 4) by lia. by rewrite decide_True by done.
Qed.

(** X21. [setAdvOptions2] and [getAdvOptions2] agree on payloads of 4
    and 5 bytes only.  With a byte value: on 4 bytes the setter appends
    the value, on 5 it overwrites the fifth byte, and in both cases the
    getter then returns the value; on more than 5 bytes the setter still
    writes offset 4 but the getter returns 0; on fewer than 4 bytes the
    setter raises [IndexError] and leaves the message as it was. *)
Theorem adv_options_2_set_then_get (v : Z) (self : Message) :
  Py.is_byte v →
  (Py.len (payload self) = 4 →
     let self' := with_payload (payload self ++ [v]) self in
     CapabilitiesMessage.setAdvOptions2 v self = (self', Ok ())
     ∧ CapabilitiesMessage.getAdvOptions2 self' = (self', Ok v))
  ∧ (Py.len (payload self) = 5 →
     let self' := with_payload (<[4%nat := v]> (payload self)) self in
     CapabilitiesMessage.setAdvOptions2 v self = (self', Ok ())
     ∧ CapabilitiesMessage.getAdvOptions2 self' = (self', Ok v))
  ∧ (5 < Py.len (payload self) →
     let self' := with_payload (<[4%nat := v]> (payload self)) self in
     CapabilitiesMessage.setAdvOptions2 v self = (self', Ok ())
     ∧ CapabilitiesMessage.getAdvOptions2 self' = (self', Ok 0))
  ∧ (Py.len (payload self) < 4 →
     CapabilitiesMessage.setAdvOptions2 v self = (self, Raise IndexError)).
Proof.
  intros Hv. split; [|split; [|split]]; intros Hl; cbv zeta.
  - split; [by apply setAdvOptions2_appends|].
    unfold CapabilitiesMessage.getAdvOptions2, with_payload. run.
    rewrite decide_True by (rewrite len_app; unfold Py.len in *; simpl; lia).
    apply (payload_get_ok 4 v 4); cbn [payload].
    + apply (index_in_range _ 4). rewrite len_app.
      unfold Py.len in *. simpl. lia.
    + rewrite lookup_app_r by (unfold Py.len in Hl; lia).
      by replace (4 - length (payload self))%nat with 0%nat
        by (unfold Py.len in Hl; lia).
  - split; [apply setAdvOptions2_overwrites; [done|lia]|].
    unfold CapabilitiesMessage.getAdvOptions2, with_payload. run.
    rewrite decide_True by (unfold Py.len in *; by rewrite length_insert).
    apply (payload_get_ok 4 v 4); cbn [payload].
    + apply (index_in_range _ 4). unfold Py.len in *.
      rewrite length_insert. lia.
    + apply list_lookup_insert_eq. unfold Py.len in Hl. lia.
  - split; [apply setAdvOptions2_overwrites; [done|lia]|].
    unfold CapabilitiesMessage.getAdvOptions2, with_payload. run.
    by rewrite decide_False
      by (unfold Py.len in *; rewrite length_insert; lia).
  - unfold CapabilitiesMessage.setAdvOptions2.
    rewrite decide_False by (unfold Py.is_byte in Hv; lia).
    run. rewrite decide_False by lia. run. unfold Py.setitem.
    by rewrite index_past_the_end by lia.
Qed.

Lemma adv_options_2_set_then_get_witness :
  Py.is_byte 7
  ∧ CapabilitiesMessage.setAdvOptions2 7
      (mkMessage CCapabilitiesMessage 0x54 [8; 3; 0; 0])
    = (mkMessage CCapabilitiesMessage 0x54 [8; 3; 0; 0; 7], Ok ())
  ∧ CapabilitiesMessage.getAdvOptions2
      (mkMessage CCapabilitiesMessage 0x54 [8; 3; 0; 0; 7])
    = (mkMessage CCapabilitiesMessage 0x54 [8; 3; 0; 0; 7], Ok 7).
Proof.
  assert (Py.is_byte 7) as Hv by by vm_compute.
  split; [exact Hv|].
  destruct (adv_options_2_set_then_get 7
              (mkMessage CCapabilitiesMessage 0x54 [8; 3; 0; 0]) Hv)
    as (H4 & _).
  apply H4. by vm_compute.
Defined.

(** ** What keeps the bounds *)

Lemma payload_set_keeps_invariant i v self :
  invariant self → invariant (payload_set i v self).1.
Proof.
  intros [Ht Hp]. unfold payload_set, Py.setitem. run.
  destruct (Py.index (payload self) i) as [n|]; [|done].
  case_decide; [|done]. split; cbn; [done|].
  unfold Py.len in *. by rewrite length_insert.
Qed.

Lemma two_byte_set_keeps_invariant n self :
  invariant self →
  invariant (ChannelIDMessage.setDeviceNumber n self).1
  ∧ invariant (ChannelPeriodMessage.setChannelPeriod n self).1.
Proof.
  intros [Ht Hp].
  assert (invariant
            (ChannelIDMessage.setDeviceNumber n self).1) as Hinv.
  { unfold ChannelIDMessage.setDeviceNumber, Py.pack_H, Py.setslice,
      Py.bytearray. run.
    case_decide; [|done]. run. case_decide; [|done]. split; cbn; [done|].
    unfold Py.len in *. rewrite length_app, length_take. cbn [length].
    rewrite length_drop. change (Z.to_nat (1 `max` 3)) with 3%nat. lia. }
  split; exact Hinv.
Qed.

(** X22. Every setter of the module but [setKey] keeps the bounds on type
    and payload: on a message with a type in 0..255 and at most 9 payload
    bytes, whatever number the one-byte and two-byte setters,
    [setAdvOptions2] and [setType] are given, and whatever sequence
    [setPayload], [setVersion] and [setSerialNumber] are given, the
    message satisfies the bounds afterwards, whether the call returned or
    raised. *)
Theorem setters_keep_invariant
    (set : Z → method ()) (v : Z) (bs : list Z) (self : Message) :
  set ∈ number_setters →
  invariant self →
  invariant (set v self).1
  ∧ invariant (Message.setPayload bs self).1
  ∧ invariant (VersionMessage.setVersion bs self).1
  ∧ invariant (SerialNumberMessage.setSerialNumber bs self).1.
Proof.
  intros Hin Hinv. split; [|split; [|split]].
  - unfold number_setters, byte_fields in Hin. cbn [fmap list_fmap fst app] in Hin.
    repeat (apply elem_of_cons in Hin as [->|Hin]);
      [..|by apply elem_of_nil in Hin];
      try (unfold_fields; try case_decide; try done;
           by apply payload_set_keeps_invariant).
    + (* setAdvOptions2 *)
      unfold_fields. case_decide; [done|]. run.
      destruct Hinv as [Ht Hp]. case_decide as Hl.
      * unfold Py.append. rewrite decide_True by by vm_compute. run.
        unfold Py.setitem.
        destruct (Py.index _ 4); [|split; cbn; [done|];
          rewrite len_app; unfold Py.len in *; simpl; lia].
        case_decide; split; cbn; try done;
          unfold Py.len in *; rewrite ?length_insert, length_app; simpl; lia.
      * run. by apply (payload_set_keeps_invariant 4 v self).
    + by apply two_byte_set_keeps_invariant.
    + by apply two_byte_set_keeps_invariant.
    + by apply setType_keeps_invariant.
  - by apply setPayload_keeps_invariant.
  - unfold VersionMessage.setVersion, Py.bytearray. case_decide; [done|]. run.
    case_decide; [|done]. by apply setPayload_keeps_invariant.
  - unfold SerialNumberMessage.setSerialNumber, Py.bytearray.
    case_decide; [done|]. run.
    case_decide; [|done]. by apply setPayload_keeps_invariant.
Qed.

Lemma setters_keep_invariant_witness :
  invariant (mkMessage CChannelIDMessage 0x51 [0; 0])
  ∧ invariant (ChannelIDMessage.setDeviceNumber 1000
                 (mkMessage CChannelIDMessage 0x51 [0; 0])).1.
Proof.
  assert (invariant (mkMessage CChannelIDMessage 0x51 [0; 0])) as Hinv
    by (split; by vm_compute).
  split; [exact Hinv|].
  destruct (setters_keep_invariant ChannelIDMessage.setDeviceNumber 1000 []
              (mkMessage CChannelIDMessage 0x51 [0; 0])) as [Hset _];
    [|exact Hinv|exact Hset].
  unfold number_setters. apply elem_of_app. right.
  apply elem_of_cons. right. apply elem_of_cons. by left.
Defined.

(** ** Running the model on the frames of the spec's scenarios *)

Section Scenarios.
#[local] Existing Instance ant_constants.

Example scenario_A :
  (m ← new CChannelOpenMessage (ChannelOpenMessage.__init__ 3);
   '(_, raw) ← invoke m Message.encode; mret (payload m, raw))
  = Ok ([0x03], [0xA4; 0x01; 0x4B; 0x03; 0xED]).
Proof. reflexivity. Qed.

Example scenario_B :
  payload <$> (match new CChannelIDMessage (ChannelIDMessage.__init__ 0 1000 5 1)
               with Ok m => Some m | Raise _ => None end)
  = Some [0x00; 0xE8; 0x03; 0x05; 0x01].
Proof. reflexivity. Qed.

(** Scenario C: a Network-Key frame for network 2 with the key of eight
    [FF] bytes resolves to a Network-Key message that reads back the
    number and the key, and encodes to the bytes it came from. *)
Example scenario_C :
  let raw := [0xA4; 0x09; 0x46; 0x02] ++ replicate 8 0xFF ++ [0xE9] in
  ∃ msg,
    (getHandler raw (mkMessage CMessage 0 [])).2 = Ok msg
    ∧ cls msg = CNetworkKeyMessage
    ∧ (NetworkKeyMessage.getNumber msg).2 = Ok 2
    ∧ (NetworkKeyMessage.getKey msg).2 = Ok (replicate 8 0xFF)
    ∧ (Message.encode msg).2 = Ok raw.
Proof. eexists. repeat split; reflexivity. Qed.

End Scenarios.
